(** * Data sockets of the FTP server (socket.go)

  A shallow embedding of [socket.go]: the active data socket, which dials
  out, and the passive data socket, which listens and lets one goroutine
  accept a single peer while [Read] and [Write] wait on a [sync.WaitGroup].

  The network, the logger and standard output are the outside world.  Calls
  into the world are answered by an oracle ([Net]) that sees the history of
  network calls so far, and every call leaves an event in the [World].
  Goroutines are modelled by interleaving: the accept goroutine is a small
  program counter ([Task]) that advances one statement at a time between the
  caller's method calls, each memory access being atomic. *)

From Stdlib Require Import ZArith List String Ascii Bool Lia.
Import ListNotations.
Local Open Scope string_scope.
Local Open Scope Z_scope.

Set Implicit Arguments.

(** ** Go values *)

Definition bytes := list Byte.byte.

Inductive NumErrKind := ErrSyntax | ErrRange.

(** An [error] value: [*strconv.NumError] or a network error ([*net.OpError],
  [*net.AddrError], a TLS alert, ...), the latter kept as its text. *)
Inductive error :=
| NumError (Func Num : string) (Err : NumErrKind)
| OpError (msg : string).

(** A Go [(value, error)] pair in which exactly one side is meaningful. *)
Inductive result (A : Type) :=
| Ok (a : A)
| Err (e : error).
Arguments Ok {A} a.
Arguments Err {A} e.

(** ** The pieces of the Go library the sockets call *)

Module strconv.

Definition digit (d : Z) : ascii := ascii_of_nat (48 + Z.to_nat d).

(** The digit loop of [formatBits] for base 10: the least significant digit
    is written first, at the right end of the buffer [a].  An int64 has at
    most 19 digits, so the loop runs at most 19 times. *)
Fixpoint formatBits (fuel : nat) (u : Z) (a : string) : string :=
  match fuel with
  | O => a
  | S fuel' =>
      if 10 <=? u
      then formatBits fuel' (u / 10) (String (digit (u mod 10)) a)
      else String (digit u) a
  end.

Definition Itoa (i : Z) : string :=
  if i <? 0 then String "-" (formatBits 20 (- i) "") else formatBits 20 i "".

(** [ch -= '0'; if ch > 9 { syntax error }] *)
Definition digit_val (ch : ascii) : option Z :=
  let n := Z.of_nat (nat_of_ascii ch) in
  if (48 <=? n) && (n <=? 57) then Some (n - 48) else None.

Fixpoint parse_digits (s : string) (n : Z) : option Z :=
  match s with
  | EmptyString => Some n
  | String ch s' =>
      match digit_val ch with
      | Some d => parse_digits s' (n * 10 + d)
      | None => None
      end
  end.

Definition maxInt : Z := 2 ^ 63 - 1.
Definition minInt : Z := - 2 ^ 63.

(** [Atoi] on a 64-bit platform: an optional sign, at least one digit, only
    digits, and a value that fits an [int]. *)
Definition Atoi (s : string) : result Z :=
  let syntaxError := Err (NumError "Atoi" s ErrSyntax) in
  let rangeError := Err (NumError "Atoi" s ErrRange) in
  match s with
  | EmptyString => syntaxError
  | String c rest =>
      let neg := Ascii.eqb c "-" in
      let body := if neg || Ascii.eqb c "+" then rest else s in
      match body with
      | EmptyString => syntaxError
      | _ =>
          match parse_digits body 0 with
          | None => syntaxError
          | Some n =>
              let v := if neg then - n else n in
              if (minInt <=? v) && (v <=? maxInt) then Ok v else rangeError
          end
      end
  end.

End strconv.

Module strings.

(** [strings.Split(s, sep)] for a separator of one byte, which is the only
    way [socket.go] calls it ([":"]).  The result is never empty. *)
Fixpoint Split (s : string) (sep : ascii) : list string :=
  match s with
  | EmptyString => [EmptyString]
  | String c s' =>
      if Ascii.eqb c sep then EmptyString :: Split s' sep
      else match Split s' sep with
           | [] => [String c EmptyString]
           | p :: ps => String c p :: ps
           end
  end.

Fixpoint IndexByte (s : string) (c : ascii) : bool :=
  match s with
  | EmptyString => false
  | String c' s' => Ascii.eqb c' c || IndexByte s' c
  end.

End strings.

Module time.
Definition Duration := Z.
Definition Second : Duration := 1000000000.
End time.

Module tls.
(** A [*tls.Config]; only its identity matters here. *)
Record Config := { Certificates : list string }.
End tls.

Module net.

(** A [*net.TCPAddr]; [IP] is kept in its textual form, empty for the
    unspecified address. *)
Record TCPAddr := { IP : string; Port : Z; Zone : string }.

(** [JoinHostPort]: a host with a colon is taken for an IPv6 literal and
    put in brackets. *)
Definition JoinHostPort (host port : string) : string :=
  if strings.IndexByte host ":"
  then "[" ++ host ++ "]:" ++ port
  else host ++ ":" ++ port.

(** The [String] method of [TCPAddr]. *)
Definition TCPAddr_String (a : TCPAddr) : string :=
  match Zone a with
  | EmptyString => JoinHostPort (IP a) (strconv.Itoa (Port a))
  | zone => JoinHostPort (IP a ++ "%" ++ zone) (strconv.Itoa (Port a))
  end.

(** A [net.Conn]: a TCP connection, or the TLS server side wrapped around
    another connection by [tls.Server]. *)
Inductive Conn :=
| TCPConn (fd : nat)
| TLSConn (raw : Conn) (config : tls.Config).

(** A [net.Listener]: a [*net.TCPListener] with its bound address, or what
    [tls.NewListener] returns. *)
Inductive Listener :=
| TCPListener (laddr : TCPAddr)
| TLSListener (inner : Listener) (config : tls.Config).

Fixpoint Addr (l : Listener) : TCPAddr :=
  match l with
  | TCPListener a => a
  | TLSListener inner _ => Addr inner
  end.

End net.

(** ** The outside world *)

(** The [Logger] the session layer hands in; [Print(sessionID, message)] is
    its one method used here, and [message] is a string or an error. *)
Definition Logger := nat.

Inductive Message :=
| MsgString (s : string)
| MsgError (e : error).

Record SinkEvent := { ev_logger : Logger; ev_session : string; ev_message : Message }.

Inductive NetEvent :=
| EvResolve (network address : string)
| EvListen (network : string) (laddr : net.TCPAddr)
| EvDial (network address : string) (timeout : time.Duration)
| EvSetDeadline (laddr : net.TCPAddr) (fromNow : time.Duration)
| EvAccept (l : net.Listener)
| EvRead (c : net.Conn) (len : nat)
| EvWrite (c : net.Conn) (p : bytes)
| EvClose (c : net.Conn).

(** What has happened so far: the lines sent to the logger, the lines printed
    on standard output, and the calls made into the network, oldest first. *)
Record World := {
  sink : list SinkEvent;
  stdout : list string;
  netlog : list NetEvent
}.

Definition World0 : World := {| sink := []; stdout := []; netlog := [] |}.

(** The answers of the operating system and of the peers.  Every answer may
    depend on the calls made before it. *)
Record Net := {
  os_ResolveTCPAddr : list NetEvent -> string -> string -> result net.TCPAddr;
  os_ListenTCP : list NetEvent -> string -> net.TCPAddr -> result net.TCPAddr;
  os_DialTimeout : list NetEvent -> string -> string -> time.Duration -> result nat;
  os_Accept : list NetEvent -> net.TCPAddr -> result nat;
  os_Read : list NetEvent -> net.Conn -> nat -> bytes * option error;
  os_Write : list NetEvent -> net.Conn -> bytes -> Z * option error;
  os_Close : list NetEvent -> net.Conn -> option error
}.

(** ** A monad for calls into the world

    A computation runs from a [World] and returns a value with the new world
    ([Val]), panics ([Panic]), or cannot proceed yet because it waits for the
    accept goroutine ([Block]). *)

Inductive outcome (A : Type) :=
| Val (a : A) (w : World)
| Panic (w : World)
| Block.
Arguments Val {A} a w.
Arguments Panic {A} w.
Arguments Block {A}.

Definition M (A : Type) := World -> outcome A.

Definition ret {A} (a : A) : M A := fun w => Val a w.

Definition bind {A B} (m : M A) (k : A -> M B) : M B :=
  fun w =>
    match m w with
    | Val a w' => k a w'
    | Panic w' => Panic w'
    | Block => Block
    end.

Declare Scope go_scope.
Delimit Scope go_scope with go.
Notation "x <- m ;; k" := (bind m (fun x => k))
  (at level 61, m at next level, right associativity) : go_scope.
Notation "m ;; k" := (bind m (fun _ => k))
  (at level 61, right associativity) : go_scope.
Local Open Scope go_scope.

Definition panic {A} : M A := fun w => Panic w.

Definition block {A} : M A := fun _ => Block.

Definition history : M (list NetEvent) := fun w => Val (netlog w) w.

Definition emit (e : NetEvent) : M unit :=
  fun w => Val tt {| sink := sink w; stdout := stdout w; netlog := netlog w ++ [e] |}.

(** [logger.Print(sessionID, message)] *)
Definition Print (logger : Logger) (sessionID : string) (message : Message) : M unit :=
  fun w =>
    Val tt {| sink := sink w ++ [{| ev_logger := logger; ev_session := sessionID;
                                    ev_message := message |}];
              stdout := stdout w; netlog := netlog w |}.

(** [fmt.Println(a, b)] with a string and an int operand. *)
Definition Println (a : string) (b : Z) : M unit :=
  fun w =>
    Val tt {| sink := sink w; stdout := stdout w ++ [a ++ " " ++ strconv.Itoa b];
              netlog := netlog w |}.

Section Calls.

Variable os : Net.

Definition ResolveTCPAddr (network address : string) : M (result net.TCPAddr) :=
  h <- history ;;
  emit (EvResolve network address) ;;
  ret (os_ResolveTCPAddr os h network address).

Definition ListenTCP (network : string) (laddr : net.TCPAddr) : M (result net.Listener) :=
  h <- history ;;
  emit (EvListen network laddr) ;;
  ret (match os_ListenTCP os h network laddr with
       | Ok bound => Ok (net.TCPListener bound)
       | Err e => Err e
       end).

Definition DialTimeout (network address : string) (timeout : time.Duration)
  : M (result net.Conn) :=
  h <- history ;;
  emit (EvDial network address timeout) ;;
  ret (match os_DialTimeout os h network address timeout with
       | Ok fd => Ok (net.TCPConn fd)
       | Err e => Err e
       end).

(** [listener.Accept()]: a TCP listener hands out the raw connection, a TLS
    listener accepts on the listener inside it and wraps what it gets with
    [tls.Server]. *)
Fixpoint accept_on (h : list NetEvent) (l : net.Listener) : result net.Conn :=
  match l with
  | net.TCPListener laddr =>
      match os_Accept os h laddr with
      | Ok fd => Ok (net.TCPConn fd)
      | Err e => Err e
      end
  | net.TLSListener inner config =>
      match accept_on h inner with
      | Ok c => Ok (net.TLSConn c config)
      | Err e => Err e
      end
  end.

Definition Accept (l : net.Listener) : M (result net.Conn) :=
  h <- history ;;
  emit (EvAccept l) ;;
  ret (accept_on h l).

(** [conn.Read(p)]: the bytes that arrive replace the front of [p]. *)
Definition conn_Read (c : net.Conn) (p : bytes) : M (Z * bytes * option error) :=
  h <- history ;;
  emit (EvRead c (List.length p)) ;;
  let '(data, e) := os_Read os h c (List.length p) in
  ret (Z.of_nat (List.length data), (data ++ skipn (List.length data) p)%list, e).

Definition conn_Write (c : net.Conn) (p : bytes) : M (Z * option error) :=
  h <- history ;;
  emit (EvWrite c p) ;;
  ret (os_Write os h c p).

Definition conn_Close (c : net.Conn) : M (option error) :=
  h <- history ;;
  emit (EvClose c) ;;
  ret (os_Close os h c).

End Calls.

Notation "' pat <- m ;; k" := (bind m (fun x => match x with pat => k end))
  (at level 61, pat pattern, m at next level, right associativity) : go_scope.

(** ** The active data socket *)

Module Active.

Record ftpActiveSocket := {
  conn : option net.Conn;
  host : string;
  port : Z;
  logger : Logger
}.

Definition Host (socket : ftpActiveSocket) : string := host socket.

Definition Port (socket : ftpActiveSocket) : Z := port socket.

Section WithNet.

Variable os : Net.

(** [fmt.Println("open", socket.port)] reads the field through [Port], the
    parameter [port] hiding the field's name here. *)
Definition newActiveSocket (remote : string) (port : Z) (logger : Logger)
  (sessionID : string) : M (result ftpActiveSocket) :=
  let connectTo := net.JoinHostPort remote (strconv.Itoa port) in
  Print logger sessionID (MsgString ("Opening active data connection to " ++ connectTo)) ;;
  r <- ResolveTCPAddr os "tcp" connectTo ;;
  match r with
  | Err err => Print logger sessionID (MsgError err) ;; ret (Err err)
  | Ok raddr =>
      r <- DialTimeout os "tcp" (net.TCPAddr_String raddr) (15 * time.Second) ;;
      match r with
      | Err err => Print logger sessionID (MsgError err) ;; ret (Err err)
      | Ok tcpConn =>
          let socket := {| conn := Some tcpConn; host := remote; port := port;
                           logger := logger |} in
          Println "open" (Port socket) ;;
          ret (Ok socket)
      end
  end.

(** A method called through a nil [conn] is a nil pointer dereference. *)
Definition Read (socket : ftpActiveSocket) (p : bytes) : M (Z * bytes * option error) :=
  match conn socket with
  | Some c => conn_Read os c p
  | None => panic
  end.

Definition Write (socket : ftpActiveSocket) (p : bytes) : M (Z * option error) :=
  match conn socket with
  | Some c => conn_Write os c p
  | None => panic
  end.

Definition Close (socket : ftpActiveSocket) : M (option error) :=
  Println "close" (port socket) ;;
  match conn socket with
  | Some c => conn_Close os c
  | None => panic
  end.

End WithNet.

End Active.

(** ** The passive data socket *)

Module Passive.

(** The fields [ingress] and [egress], two channels made by the constructor
    and used nowhere, are left out. [wg] is the counter of the WaitGroup. *)
Record ftpPassiveSocket := {
  conn : option net.Conn;
  port : Z;
  host : string;
  logger : Logger;
  wg : nat;
  err : option error;
  tlsConfig : option tls.Config
}.

Definition set_conn (c : option net.Conn) (s : ftpPassiveSocket) : ftpPassiveSocket :=
  {| conn := c; port := port s; host := host s; logger := logger s; wg := wg s;
     err := err s; tlsConfig := tlsConfig s |}.

Definition set_port (p : Z) (s : ftpPassiveSocket) : ftpPassiveSocket :=
  {| conn := conn s; port := p; host := host s; logger := logger s; wg := wg s;
     err := err s; tlsConfig := tlsConfig s |}.

Definition set_wg (n : nat) (s : ftpPassiveSocket) : ftpPassiveSocket :=
  {| conn := conn s; port := port s; host := host s; logger := logger s; wg := n;
     err := err s; tlsConfig := tlsConfig s |}.

Definition set_err (e : option error) (s : ftpPassiveSocket) : ftpPassiveSocket :=
  {| conn := conn s; port := port s; host := host s; logger := logger s; wg := wg s;
     err := e; tlsConfig := tlsConfig s |}.

(** The goroutine of [GoListenAndServe], as the statement it executes next.
    It shares [socket] with the caller and owns [listener]. *)
Inductive Task :=
| NotStarted
| AtSetDeadline (listener : net.Listener)
| AtAccept (listener : net.Listener)
| AfterAccept (r : result net.Conn)
| AtSetConn (c : net.Conn)
| AtDone
| Exited
| Crashed.

(** The socket on the heap together with the goroutine working on it. *)
Record State := { sock : ftpPassiveSocket; task : Task }.

Definition Host (socket : ftpPassiveSocket) : string := host socket.

Definition Port (socket : ftpPassiveSocket) : Z := port socket.

Section WithNet.

Variable os : Net.

(** Everything up to the [go] statement; the goroutine is returned at its
    first statement.  [parts[len(parts)-1]] panics on an empty slice. *)
Definition GoListenAndServe (sessionID : string) (socket : ftpPassiveSocket)
  : M (State * option error) :=
  let failed err := ret ({| sock := socket; task := NotStarted |}, Some err) in
  r <- ResolveTCPAddr os "tcp" (net.JoinHostPort "" (strconv.Itoa (port socket))) ;;
  match r with
  | Err err => Print (logger socket) sessionID (MsgError err) ;; failed err
  | Ok laddr =>
      r <- ListenTCP os "tcp" laddr ;;
      match r with
      | Err err => Print (logger socket) sessionID (MsgError err) ;; failed err
      | Ok listener =>
          let add := net.Addr listener in
          let parts := strings.Split (net.TCPAddr_String add) ":" in
          match nth_error parts (List.length parts - 1) with
          | None => panic
          | Some last =>
              match strconv.Atoi last with
              | Err err => Print (logger socket) sessionID (MsgError err) ;; failed err
              | Ok port =>
                  let socket := set_port port socket in
                  let socket := set_wg (wg socket + 1) socket in
                  let listener :=
                    match tlsConfig socket with
                    | Some config => net.TLSListener listener config
                    | None => listener
                    end in
                  ret ({| sock := socket; task := AtSetDeadline listener |}, None)
              end
          end
      end
  end.

(** The parameter [tlsConfing] is never stored: [socket.tlsConfig] keeps the
    zero value.  [fmt.Println("open", socket.port)] reads the field through
    [Port], the parameter [port] hiding the field's name here. *)
Definition newPassiveSocket (host : string) (port : Z) (logger : Logger)
  (sessionID : string) (tlsConfing : option tls.Config) : M (result State) :=
  let socket := {| conn := None; port := port; host := host; logger := logger;
                   wg := 0; err := None; tlsConfig := None |} in
  '(st, err) <- GoListenAndServe sessionID socket ;;
  match err with
  | Some err => ret (Err err)
  | None => Println "open" (Port (sock st)) ;; ret (Ok st)
  end.

(** One statement of the goroutine.  The type assertion of [listener] to
    [*net.TCPListener] panics on any other listener, and a panic
    in a goroutine ends the process.  [defer socket.wg.Done()] runs when the
    function returns, after the assignments. *)
Definition goroutine (st : State) : M State :=
  let socket := sock st in
  match task st with
  | AtSetDeadline listener =>
      match listener with
      | net.TCPListener laddr =>
          emit (EvSetDeadline laddr (15 * time.Second)) ;;
          ret {| sock := socket; task := AtAccept listener |}
      | net.TLSListener _ _ => ret {| sock := socket; task := Crashed |}
      end
  | AtAccept listener =>
      r <- Accept os listener ;;
      ret {| sock := socket; task := AfterAccept r |}
  | AfterAccept (Err err) =>
      ret {| sock := set_err (Some err) socket; task := AtDone |}
  | AfterAccept (Ok c) =>
      ret {| sock := set_err None socket; task := AtSetConn c |}
  | AtSetConn c =>
      ret {| sock := set_conn (Some c) socket; task := AtDone |}
  | AtDone =>
      match wg socket with
      | O => ret {| sock := socket; task := Crashed |}
      | S n => ret {| sock := set_wg n socket; task := Exited |}
      end
  | NotStarted | Exited | Crashed => block
  end.

(** [socket.wg.Wait()] returns once the counter is zero. *)
Definition waitForOpenSocket (socket : ftpPassiveSocket) : M (option error) :=
  match conn socket with
  | Some _ => ret None
  | None =>
      match wg socket with
      | O => ret (err socket)
      | S _ => block
      end
  end.

Definition Read (socket : ftpPassiveSocket) (p : bytes) : M (Z * bytes * option error) :=
  err <- waitForOpenSocket socket ;;
  match err with
  | Some err => ret (0, p, Some err)
  | None =>
      match conn socket with
      | Some c => conn_Read os c p
      | None => panic
      end
  end.

Definition Write (socket : ftpPassiveSocket) (p : bytes) : M (Z * option error) :=
  err <- waitForOpenSocket socket ;;
  match err with
  | Some err => ret (0, Some err)
  | None =>
      match conn socket with
      | Some c => conn_Write os c p
      | None => panic
      end
  end.

Definition Close (socket : ftpPassiveSocket) : M (option error) :=
  match conn socket with
  | Some c => Println "close" (port socket) ;; conn_Close os c
  | None => ret None
  end.

End WithNet.

End Passive.

(** ** The passive socket as a transition system

    A configuration is the socket with its goroutine, and the world.  Between
    two configurations the goroutine executes one statement, or the caller
    completes one call of [Read], [Write] or [Close].  A call that waits
    ([Block]) is no transition: it stays pending until it can return.  After
    a panic of the goroutine the process is gone and nothing is called. *)

Definition Config := (Passive.State * World)%type.

Inductive step (os : Net) : Config -> Config -> Prop :=
| step_goroutine : forall st w st' w',
    Passive.goroutine os st w = Val st' w' ->
    step os (st, w) (st', w')
| step_Read : forall st w p r w',
    Passive.task st <> Passive.Crashed ->
    Passive.Read os (Passive.sock st) p w = Val r w' ->
    step os (st, w) (st, w')
| step_Write : forall st w p r w',
    Passive.task st <> Passive.Crashed ->
    Passive.Write os (Passive.sock st) p w = Val r w' ->
    step os (st, w) (st, w')
| step_Close : forall st w r w',
    Passive.task st <> Passive.Crashed ->
    Passive.Close os (Passive.sock st) w = Val r w' ->
    step os (st, w) (st, w').

Inductive run (os : Net) : Config -> Config -> Prop :=
| run_refl : forall c, run os c c
| run_step : forall c1 c2 c3, run os c1 c2 -> step os c2 c3 -> run os c1 c3.

(** The configurations a passive socket made by [newPassiveSocket] can be in. *)
Definition reachable (os : Net) (c : Config) : Prop :=
  exists host port logger sessionID tlsConfing w0 st w,
    Passive.newPassiveSocket os host port logger sessionID tlsConfing w0 = Val (Ok st) w
    /\ run os (st, w) c.

(** What [waitForOpenSocket] makes of the fields: the readiness gate.
    [Unarmed] is a socket nobody will ever resolve: no stream, no error and a
    WaitGroup at zero, as [new(ftpPassiveSocket)] leaves it. *)
Inductive Gate :=
| Pending
| Ready (stream : net.Conn)
| Failed (e : error)
| Unarmed.

Definition gate (socket : Passive.ftpPassiveSocket) : Gate :=
  match Passive.conn socket with
  | Some c => Ready c
  | None =>
      match Passive.wg socket with
      | S _ => Pending
      | O => match Passive.err socket with
             | Some e => Failed e
             | None => Unarmed
             end
      end
  end.

(** [listener.Accept()] of the goroutine has returned. *)
Definition accept_returned (t : Passive.Task) : bool :=
  match t with
  | Passive.AfterAccept _ | Passive.AtSetConn _ | Passive.AtDone | Passive.Exited => true
  | _ => false
  end.

(** [listener.Accept()] of the goroutine has returned a connection. *)
Definition peer_accepted (st : Passive.State) : bool :=
  match Passive.task st with
  | Passive.AfterAccept (Ok _) | Passive.AtSetConn _ => true
  | _ => match Passive.conn (Passive.sock st) with Some _ => true | None => false end
  end.

(** ** A small network to run the sockets in

    Addresses resolve by cutting at the last colon; listening on port 0 binds
    port 40000 on [::], and no port above 65535 can be bound; dialling port 9
    is refused; a peer connects to every
    listener, or none does ([quiet]), and then sends PING. *)

Definition demo_resolve (address : string) : result net.TCPAddr :=
  match rev (strings.Split address ":") with
  | p :: h :: _ =>
      match strconv.Atoi p with
      | Ok n => Ok {| net.IP := h; net.Port := n; net.Zone := "" |}
      | Err e => Err e
      end
  | _ => Err (OpError "missing port in address")
  end.

Definition demo_listen (laddr : net.TCPAddr) : result net.TCPAddr :=
  if (0 <=? net.Port laddr) && (net.Port laddr <=? 65535)
  then Ok {| net.IP := match net.IP laddr with EmptyString => "::" | ip => ip end;
             net.Port := if net.Port laddr =? 0 then 40000 else net.Port laddr;
             net.Zone := "" |}
  else Err (OpError "listen tcp: address: invalid port").

Definition PING : bytes := [Byte.x50; Byte.x49; Byte.x4e; Byte.x47].

Definition demo_net (quiet : bool) : Net := {|
  os_ResolveTCPAddr := fun _ _ address => demo_resolve address;
  os_ListenTCP := fun _ _ laddr => demo_listen laddr;
  os_DialTimeout := fun _ _ address _ =>
    if String.eqb address "10.0.0.1:9"
    then Err (OpError "dial tcp 10.0.0.1:9: connect: connection refused")
    else Ok 7%nat;
  os_Accept := fun _ _ =>
    if quiet then Err (OpError "accept tcp [::]:40000: i/o timeout") else Ok 8%nat;
  os_Read := fun _ _ len => (firstn len PING, None);
  os_Write := fun _ _ p => (Z.of_nat (List.length p), None);
  os_Close := fun _ _ => None
|}.

Definition demo_config : tls.Config := {| tls.Certificates := ["server.pem"] |}.

(** A socket as [newPassiveSocket] would make it had it stored [tlsConfing]. *)
Definition demo_tls_socket : Passive.ftpPassiveSocket :=
  {| Passive.conn := None; Passive.port := 0; Passive.host := "127.0.0.1";
     Passive.logger := 1%nat; Passive.wg := 0; Passive.err := None;
     Passive.tlsConfig := Some demo_config |}.

(** Runs the goroutine for at most [n] statements. *)
Fixpoint goroutine_run (os : Net) (n : nat) (st : Passive.State) (w : World) : Config :=
  match n with
  | O => (st, w)
  | S n' =>
      match Passive.goroutine os st w with
      | Val st' w' => goroutine_run os n' st' w'
      | _ => (st, w)
      end
  end.

(** The passive socket on 127.0.0.1 with port 0 in the small network, as the
    constructor returns it, and after [n] statements of its goroutine. *)
Definition demo_started (quiet : bool) : Config :=
  match Passive.newPassiveSocket (demo_net quiet) "127.0.0.1" 0 1%nat "s1" None World0 with
  | Val (Ok st) w => (st, w)
  | _ => ({| Passive.sock := demo_tls_socket; Passive.task := Passive.NotStarted |}, World0)
  end.

Definition demo_after (quiet : bool) (n : nat) : Config :=
  goroutine_run (demo_net quiet) n (fst (demo_started quiet)) (snd (demo_started quiet)).

(** [Close] called [n] times in a row; the errors returned, oldest first. *)
Fixpoint Close_times (os : Net) (n : nat) (socket : Passive.ftpPassiveSocket)
  : M (list (option error)) :=
  match n with
  | O => ret []
  | S n' =>
      e <- Passive.Close os socket ;;
      es <- Close_times os n' socket ;;
      ret (e :: es)
  end.

(** ** The invariant of the passive socket *)

Definition is_tcp (l : net.Listener) : bool :=
  match l with net.TCPListener _ => true | net.TLSListener _ _ => false end.

Definition is_raw (c : net.Conn) : bool :=
  match c with net.TCPConn _ => true | net.TLSConn _ _ => false end.

(** Nothing is written yet and one goroutine is counted. *)
Definition untouched (s : Passive.ftpPassiveSocket) : Prop :=
  Passive.conn s = None /\ Passive.err s = None /\ Passive.wg s = 1%nat.

(** Exactly one of stream and error is there. *)
Definition settled (s : Passive.ftpPassiveSocket) : Prop :=
  match Passive.conn s, Passive.err s with
  | Some c, None => is_raw c = true
  | None, Some _ => True
  | _, _ => False
  end.

Definition inv (st : Passive.State) : Prop :=
  let s := Passive.sock st in
  Passive.tlsConfig s = None /\
  match Passive.task st with
  | Passive.AtSetDeadline l | Passive.AtAccept l => is_tcp l = true /\ untouched s
  | Passive.AfterAccept (Ok c) | Passive.AtSetConn c => is_raw c = true /\ untouched s
  | Passive.AfterAccept (Err _) => untouched s
  | Passive.AtDone => Passive.wg s = 1%nat /\ settled s
  | Passive.Exited => Passive.wg s = 0%nat /\ settled s
  | Passive.NotStarted | Passive.Crashed => False
  end.

(** The accept of the goroutine has failed with [e], and the goroutine is
    at or past the statement that stores it. *)
Definition accept_failed (e : error) (st : Passive.State) : Prop :=
  let s := Passive.sock st in
  match Passive.task st with
  | Passive.AfterAccept (Err e') => e' = e /\ untouched s
  | Passive.AtDone =>
      Passive.conn s = None /\ Passive.err s = Some e /\ Passive.wg s = 1%nat
  | Passive.Exited =>
      Passive.conn s = None /\ Passive.err s = Some e /\ Passive.wg s = 0%nat
  | _ => False
  end.

(** A run in which [listener.Accept()] never returns a connection. *)
Inductive run_without_peer (os : Net) : Config -> Config -> Prop :=
| rwp_refl : forall c, run_without_peer os c c
| rwp_step : forall c1 c2 c3,
    run_without_peer os c1 c2 ->
    step os c2 c3 ->
    (forall c, Passive.task (fst c3) <> Passive.AfterAccept (Ok c)) ->
    run_without_peer os c1 c3.

(** The operating system binds a listener to a real port, whatever port was
    asked for. *)
Definition binds_real_ports (os : Net) : Prop :=
  forall h network laddr bound,
    os_ListenTCP os h network laddr = Ok bound -> 0 < net.Port bound <= 65535.

(** The number of [listener.Accept()] calls in a history of network calls. *)
Definition is_accept (e : NetEvent) : bool :=
  match e with EvAccept _ => true | _ => false end.

Definition accepts (log : list NetEvent) : nat := List.length (filter is_accept log).

(** The logger event for an error reported under a session. *)
Definition logged_error (logger : Logger) (sessionID : string) (e : error) : SinkEvent :=
  {| ev_logger := logger; ev_session := sessionID; ev_message := MsgError e |}.

(** * Properties *)

Unset Implicit Arguments.

(** ** Decimal numbers: [Atoi] reads back what [Itoa] writes *)

Lemma digit_val_digit (d : Z) :
  0 <= d <= 9 -> strconv.digit_val (strconv.digit d) = Some d.
Proof.
  intros H.
  assert (E : d = 0 \/ d = 1 \/ d = 2 \/ d = 3 \/ d = 4 \/ d = 5 \/ d = 6
              \/ d = 7 \/ d = 8 \/ d = 9) by lia.
  repeat (destruct E as [E | E]; [subst d; reflexivity | ]).
  subst d; reflexivity.
Qed.

Lemma digit_val_not_byte (c ch : ascii) :
  strconv.digit_val ch = None ->
  forall d, strconv.digit_val c = Some d -> Ascii.eqb c ch = false.
Proof.
  intros Hch d Hc.
  destruct (Ascii.eqb c ch) eqn:E; [ | reflexivity].
  apply Ascii.eqb_eq in E. subst c. congruence.
Qed.

Lemma parse_digits_app (s1 s2 : string) :
  forall n,
    strconv.parse_digits (s1 ++ s2) n =
    match strconv.parse_digits s1 n with
    | Some m => strconv.parse_digits s2 m
    | None => None
    end.
Proof.
  induction s1 as [ | c s1 IH]; intros n; simpl.
  - reflexivity.
  - destruct (strconv.digit_val c); [apply IH | reflexivity].
Qed.

Lemma parse_digits_no_byte (ch : ascii) :
  strconv.digit_val ch = None ->
  forall s n m, strconv.parse_digits s n = Some m -> strings.IndexByte s ch = false.
Proof.
  intros Hch s.
  induction s as [ | c s IH]; intros n m H; simpl in *.
  - reflexivity.
  - destruct (strconv.digit_val c) as [d | ] eqn:Ed; [ | discriminate].
    rewrite (digit_val_not_byte c ch Hch d Ed). simpl. eauto.
Qed.

Lemma append_assoc_one (s : string) (c : ascii) (a : string) :
  (s ++ String c "") ++ a = s ++ String c a.
Proof.
  induction s as [ | x s IH]; simpl; [reflexivity | now rewrite IH].
Qed.

Lemma length_append_one (s : string) (c : ascii) :
  String.length (s ++ String c "") = S (String.length s).
Proof.
  induction s as [ | x s IH]; simpl; [reflexivity | now rewrite IH].
Qed.

(** The digit loop writes, in front of the buffer, a non-empty string of
    digits whose value is [u]. *)
Lemma formatBits_digits (fuel : nat) :
  forall u a,
    (0 < fuel)%nat -> 0 <= u < 10 ^ Z.of_nat fuel ->
    exists ds,
      strconv.formatBits fuel u a = ds ++ a /\ ds <> "" /\
      forall n, strconv.parse_digits ds n =
                Some (n * 10 ^ Z.of_nat (String.length ds) + u).
Proof.
  induction fuel as [ | fuel IH]; intros u a Hfuel Hu; [lia | ].
  simpl strconv.formatBits.
  destruct (10 <=? u) eqn:E.
  - apply Z.leb_le in E.
    assert (Hpow : 10 ^ Z.of_nat (S fuel) = 10 * 10 ^ Z.of_nat fuel).
    { rewrite Nat2Z.inj_succ, Z.pow_succ_r by lia. reflexivity. }
    assert (Hq : 0 <= u / 10 < 10 ^ Z.of_nat fuel).
    { split; [apply Z.div_pos; lia | apply Z.div_lt_upper_bound; lia]. }
    assert (Hq1 : 1 <= u / 10) by (apply Z.div_le_lower_bound; lia).
    assert (Hf : (0 < fuel)%nat).
    { destruct fuel; [change (10 ^ Z.of_nat 0) with 1 in Hq; lia | lia]. }
    destruct (IH (u / 10) (String (strconv.digit (u mod 10)) a) Hf Hq)
      as (ds & Heq & Hne & Hval).
    exists (ds ++ String (strconv.digit (u mod 10)) "").
    split; [ | split].
    + rewrite Heq. symmetry. apply append_assoc_one.
    + destruct ds; discriminate.
    + intros n. rewrite parse_digits_app, Hval. cbn [strconv.parse_digits].
      rewrite digit_val_digit by (pose proof (Z.mod_pos_bound u 10); lia).
      f_equal. rewrite length_append_one, Nat2Z.inj_succ, Z.pow_succ_r by lia.
      pose proof (Z.div_mod u 10). lia.
  - apply Z.leb_gt in E.
    exists (String (strconv.digit u) ""). split; [reflexivity | split; [discriminate | ]].
    intros n. cbn [strconv.parse_digits String.length].
    rewrite digit_val_digit by lia. reflexivity.
Qed.

Lemma maxInt_lt_fuel : strconv.maxInt < 10 ^ Z.of_nat 20.
Proof. reflexivity. Qed.

(** [Itoa] of a non-negative int: digits only, so no colon, and [Atoi] gives
    the number back. *)
Lemma Itoa_no_colon (p : Z) :
  0 <= p <= strconv.maxInt -> strings.IndexByte (strconv.Itoa p) ":" = false.
Proof.
  intros Hp. unfold strconv.Itoa.
  destruct (p <? 0) eqn:E; [apply Z.ltb_lt in E; lia | ].
  pose proof maxInt_lt_fuel.
  destruct (formatBits_digits 20 p "") as (ds & Heq & _ & Hval); [lia | lia | ].
  rewrite Heq.
  eapply parse_digits_no_byte with (n := 0); [reflexivity | ].
  rewrite parse_digits_app, Hval. reflexivity.
Qed.

Lemma Atoi_Itoa (p : Z) :
  0 <= p <= strconv.maxInt -> strconv.Atoi (strconv.Itoa p) = Ok p.
Proof.
  intros Hp. unfold strconv.Itoa.
  destruct (p <? 0) eqn:E; [apply Z.ltb_lt in E; lia | ].
  pose proof maxInt_lt_fuel.
  destruct (formatBits_digits 20 p "") as (ds & Heq & Hne & Hval); [lia | lia | ].
  rewrite Heq.
  assert (Hds : ds ++ "" = ds).
  { clear. induction ds; simpl; [reflexivity | now rewrite IHds]. }
  rewrite Hds.
  destruct ds as [ | c ds]; [congruence | ].
  pose proof (Hval 0) as H0. cbn [strconv.parse_digits] in H0.
  destruct (strconv.digit_val c) as [d | ] eqn:Ed; [ | discriminate].
  unfold strconv.Atoi.
  rewrite (digit_val_not_byte c "-" eq_refl d Ed).
  rewrite (digit_val_not_byte c "+" eq_refl d Ed).
  cbn [orb]. rewrite (Hval 0).
  replace (0 * 10 ^ Z.of_nat (String.length (String c ds)) + p) with p by lia.
  unfold strconv.minInt, strconv.maxInt in *.
  destruct ((- 2 ^ 63 <=? p) && (p <=? 2 ^ 63 - 1)) eqn:R; [reflexivity | ].
  apply andb_false_iff in R. destruct R as [R | R];
    [apply Z.leb_gt in R | apply Z.leb_gt in R]; lia.
Qed.

(** ** Splitting an address at its colons *)

Lemma Split_nonempty (s : string) (sep : ascii) : strings.Split s sep <> [].
Proof.
  destruct s as [ | c s]; simpl; [discriminate | ].
  destruct (Ascii.eqb c sep); [discriminate | ].
  destruct (strings.Split s sep); discriminate.
Qed.

Lemma Split_without_sep (d : string) (sep : ascii) :
  strings.IndexByte d sep = false -> strings.Split d sep = [d].
Proof.
  induction d as [ | c d IH]; simpl; intros H; [reflexivity | ].
  apply orb_false_iff in H. destruct H as [Hc Hd].
  rewrite Hc, (IH Hd). reflexivity.
Qed.

Lemma Split_append_sep (x : string) (sep : ascii) (d : string) :
  exists pre,
    strings.Split (x ++ String sep d) sep = (pre ++ strings.Split d sep)%list
    /\ pre <> [].
Proof.
  induction x as [ | c x (pre & IH & Hne)]; simpl.
  - rewrite Ascii.eqb_refl. exists [""]. split; [reflexivity | discriminate].
  - destruct (Ascii.eqb c sep).
    + exists ("" :: pre). rewrite IH. split; [reflexivity | discriminate].
    + rewrite IH. destruct pre as [ | q pre]; [congruence | ].
      exists (String c q :: pre). split; [reflexivity | discriminate].
Qed.

Lemma nth_error_last (A : Type) (pre : list A) (d : A) :
  nth_error (pre ++ [d]) (List.length (pre ++ [d]) - 1) = Some d.
Proof.
  rewrite length_app. simpl.
  replace (List.length pre + 1 - 1)%nat with (List.length pre) by lia.
  rewrite nth_error_app2 by lia. rewrite Nat.sub_diag. reflexivity.
Qed.

Lemma append_assoc (a b c : string) : (a ++ b) ++ c = a ++ (b ++ c).
Proof.
  induction a as [ | x a IH]; simpl; [reflexivity | now rewrite IH].
Qed.

Lemma JoinHostPort_shape (host port : string) :
  exists x, net.JoinHostPort host port = x ++ String ":" port.
Proof.
  unfold net.JoinHostPort. destruct (strings.IndexByte host ":").
  - exists ("[" ++ host ++ "]"). simpl. f_equal. rewrite append_assoc. reflexivity.
  - exists host. reflexivity.
Qed.

Lemma TCPAddr_String_shape (a : net.TCPAddr) :
  exists x, net.TCPAddr_String a = x ++ String ":" (strconv.Itoa (net.Port a)).
Proof.
  unfold net.TCPAddr_String. destruct (net.Zone a); apply JoinHostPort_shape.
Qed.

(** The last of the parts of a printed address is its port, whatever the
    host looks like (an IPv6 literal has colons of its own). *)
Lemma port_part_of_address (a : net.TCPAddr) :
  0 <= net.Port a <= strconv.maxInt ->
  let parts := strings.Split (net.TCPAddr_String a) ":" in
  nth_error parts (List.length parts - 1) = Some (strconv.Itoa (net.Port a)).
Proof.
  intros Hp. cbv zeta.
  destruct (TCPAddr_String_shape a) as (x & ->).
  destruct (Split_append_sep x ":" (strconv.Itoa (net.Port a))) as (pre & -> & _).
  rewrite (Split_without_sep _ _ (Itoa_no_colon _ Hp)).
  apply nth_error_last.
Qed.

Lemma index_last_part (s : string) :
  exists last,
    nth_error (strings.Split s ":") (List.length (strings.Split s ":") - 1) = Some last.
Proof.
  pose proof (Split_nonempty s ":") as Hne.
  destruct (strings.Split s ":") as [ | p ps] eqn:E; [congruence | ].
  destruct (nth_error (p :: ps) (List.length (p :: ps) - 1)) eqn:N; [eauto | ].
  apply nth_error_None in N. simpl in N. lia.
Qed.

(** ** What the constructors do *)

Ltac run_go :=
  cbv [bind ret panic block history emit Print Println
       ResolveTCPAddr ListenTCP DialTimeout Accept conn_Read conn_Write conn_Close
       netlog sink stdout].

(** [GoListenAndServe] returns nil only after resolving, listening and
    reading the port back, and then leaves the goroutine at its start. *)
Lemma GoListenAndServe_started os sessionID s w st w' :
  Passive.GoListenAndServe os sessionID s w = Val (st, None) w' ->
  exists laddr bound p,
    let address := net.JoinHostPort "" (strconv.Itoa (Passive.port s)) in
    os_ResolveTCPAddr os (netlog w) "tcp" address = Ok laddr /\
    os_ListenTCP os (netlog w ++ [EvResolve "tcp" address]) "tcp" laddr = Ok bound /\
    (0 <= net.Port bound <= strconv.maxInt -> p = net.Port bound) /\
    Passive.sock st = Passive.set_wg (Passive.wg s + 1) (Passive.set_port p s) /\
    Passive.task st =
      Passive.AtSetDeadline
        match Passive.tlsConfig s with
        | Some config => net.TLSListener (net.TCPListener bound) config
        | None => net.TCPListener bound
        end /\
    sink w' = sink w /\ stdout w' = stdout w /\
    netlog w' = ((netlog w ++ [EvResolve "tcp" address]) ++ [EvListen "tcp" laddr])%list.
Proof.
  unfold Passive.GoListenAndServe. run_go.
  destruct w as [sk out log]. cbn [netlog sink stdout].
  destruct (os_ResolveTCPAddr os log "tcp" _) as [laddr | e] eqn:R; [ | discriminate].
  destruct (os_ListenTCP os _ "tcp" laddr) as [bound | e] eqn:L; [ | discriminate].
  cbn [net.Addr].
  destruct (nth_error _ _) as [last | ] eqn:N; [ | discriminate].
  destruct (strconv.Atoi last) as [p | e] eqn:A; [ | discriminate].
  intros H. injection H as <- <-.
  exists laddr, bound, p. cbv zeta. cbn [Passive.sock Passive.task sink stdout netlog].
  repeat split; try assumption; try reflexivity.
  intros Hp. pose proof (port_part_of_address bound Hp) as Hlast. cbv zeta in Hlast.
  rewrite Hlast in N. injection N as <-. rewrite (Atoi_Itoa _ Hp) in A. congruence.
Qed.

Lemma newPassiveSocket_started os host port logger sessionID tlsConfing w0 st w :
  Passive.newPassiveSocket os host port logger sessionID tlsConfing w0 = Val (Ok st) w ->
  exists laddr bound p,
    let address := net.JoinHostPort "" (strconv.Itoa port) in
    os_ResolveTCPAddr os (netlog w0) "tcp" address = Ok laddr /\
    os_ListenTCP os (netlog w0 ++ [EvResolve "tcp" address]) "tcp" laddr = Ok bound /\
    (0 <= net.Port bound <= strconv.maxInt -> p = net.Port bound) /\
    Passive.sock st =
      {| Passive.conn := None; Passive.port := p; Passive.host := host;
         Passive.logger := logger; Passive.wg := 1; Passive.err := None;
         Passive.tlsConfig := None |} /\
    Passive.task st = Passive.AtSetDeadline (net.TCPListener bound) /\
    sink w = sink w0 /\
    stdout w = (stdout w0 ++ [("open " ++ strconv.Itoa p)%string])%list /\
    netlog w = ((netlog w0 ++ [EvResolve "tcp" address]) ++ [EvListen "tcp" laddr])%list.
Proof.
  unfold Passive.newPassiveSocket, bind at 1.
  destruct (Passive.GoListenAndServe _ _ _ _) as [[st1 [e | ]] w1 | | ] eqn:G;
    try discriminate.
  cbv [bind Println ret]. intros H. injection H as <- <-.
  apply GoListenAndServe_started in G.
  destruct G as (laddr & bound & p & R & L & Hp & Hs & Ht & Hk & Ho & Hn).
  cbn [Passive.port Passive.tlsConfig Passive.wg] in *.
  exists laddr, bound, p. cbn [sink stdout netlog Passive.Port].
  rewrite Hs. cbn [Passive.port Passive.set_wg Passive.set_port].
  repeat split; try assumption. rewrite Ho. reflexivity.
Qed.

(** ** The invariant holds in every reachable configuration *)

Lemma inv_newPassiveSocket os host port logger sessionID tlsConfing w0 st w :
  Passive.newPassiveSocket os host port logger sessionID tlsConfing w0 = Val (Ok st) w ->
  inv st.
Proof.
  intros H. apply newPassiveSocket_started in H.
  destruct H as (laddr & bound & p & _ & _ & _ & Hs & Ht & _).
  unfold inv, untouched. rewrite Hs, Ht. cbn. auto.
Qed.

(** One statement of the goroutine, case by case. *)
Lemma goroutine_cases os st w st' w' :
  Passive.goroutine os st w = Val st' w' ->
  let s := Passive.sock st in
  match Passive.task st with
  | Passive.AtSetDeadline (net.TCPListener laddr as l) =>
      st' = {| Passive.sock := s; Passive.task := Passive.AtAccept l |}
  | Passive.AtSetDeadline (net.TLSListener _ _) =>
      st' = {| Passive.sock := s; Passive.task := Passive.Crashed |}
  | Passive.AtAccept l =>
      st' = {| Passive.sock := s;
               Passive.task := Passive.AfterAccept (accept_on os (netlog w) l) |}
  | Passive.AfterAccept (Err e) =>
      st' = {| Passive.sock := Passive.set_err (Some e) s; Passive.task := Passive.AtDone |}
  | Passive.AfterAccept (Ok c) =>
      st' = {| Passive.sock := Passive.set_err None s; Passive.task := Passive.AtSetConn c |}
  | Passive.AtSetConn c =>
      st' = {| Passive.sock := Passive.set_conn (Some c) s; Passive.task := Passive.AtDone |}
  | Passive.AtDone =>
      match Passive.wg s with
      | O => st' = {| Passive.sock := s; Passive.task := Passive.Crashed |}
      | S n => st' = {| Passive.sock := Passive.set_wg n s; Passive.task := Passive.Exited |}
      end
  | Passive.NotStarted | Passive.Exited | Passive.Crashed => False
  end.
Proof.
  unfold Passive.goroutine. run_go. cbv zeta.
  destruct (Passive.task st) as [ | [laddr | inner config] | l | [c | e] | c | | | ];
    try discriminate; try (intros H; injection H as <- <-; reflexivity).
  destruct (Passive.wg (Passive.sock st));
    intros H; injection H as <- <-; reflexivity.
Qed.

Lemma accept_on_tcp_raw os h l c :
  is_tcp l = true -> accept_on os h l = Ok c -> is_raw c = true.
Proof.
  destruct l as [laddr | inner config]; [ | discriminate].
  intros _. simpl. destruct (os_Accept os h laddr); [ | discriminate].
  intros H. injection H as <-. reflexivity.
Qed.

Lemma inv_goroutine os st w st' w' :
  inv st -> Passive.goroutine os st w = Val st' w' -> inv st'.
Proof.
  intros [Htls Hinv] H. apply goroutine_cases in H. cbv zeta in H.
  unfold inv, untouched, settled in *.
  destruct st as [s t]. cbn [Passive.sock Passive.task] in *.
  destruct t as [ | [laddr | inner config] | l | [c | e] | c | | | ];
    try contradiction.
  - subst st'. cbn. tauto.
  - destruct Hinv as [Hl _]. discriminate.
  - subst st'. cbn [Passive.sock Passive.task].
    destruct Hinv as (Hl & Hc & He & Hw). split; [assumption | ].
    destruct (accept_on os (netlog w) l) as [c | e] eqn:A; [ | auto].
    split; [eapply accept_on_tcp_raw; eassumption | auto].
  - subst st'. cbn. tauto.
  - subst st'. cbn. destruct Hinv as (Hc & He & Hw). rewrite Hc. auto.
  - subst st'. cbn. destruct Hinv as (Hr & Hc & He & Hw). rewrite He. auto.
  - destruct Hinv as [Hw Hs]. rewrite Hw in H. subst st'. cbn. auto.
Qed.

Lemma step_cases os st w st' w' :
  step os (st, w) (st', w') ->
  Passive.goroutine os st w = Val st' w' \/
  (st' = st /\ Passive.task st <> Passive.Crashed /\
   ((exists p r, Passive.Read os (Passive.sock st) p w = Val r w') \/
    (exists p r, Passive.Write os (Passive.sock st) p w = Val r w') \/
    (exists r, Passive.Close os (Passive.sock st) w = Val r w'))).
Proof.
  intros H. inversion H; subst; [left; assumption | right .. ];
    (split; [reflexivity | split; [assumption | eauto 6]]).
Qed.

Lemma inv_step os st w st' w' : inv st -> step os (st, w) (st', w') -> inv st'.
Proof.
  intros Hinv H. apply step_cases in H. destruct H as [H | (-> & _)].
  - eapply inv_goroutine; eassumption.
  - assumption.
Qed.

Lemma inv_run os c c' : run os c c' -> inv (fst c) -> inv (fst c').
Proof.
  induction 1 as [c | c1 [st2 w2] [st3 w3] _ IH Hstep]; intros Hinv; [assumption | ].
  eapply inv_step; [apply IH; assumption | eassumption].
Qed.

Lemma inv_reachable os st w : reachable os (st, w) -> inv st.
Proof.
  intros (host & port & logger & sid & tlsc & w0 & st0 & w1 & Hnew & Hrun).
  apply (inv_run os _ _ Hrun). simpl. eapply inv_newPassiveSocket; eassumption.
Qed.

Lemma run_trans os c1 c2 c3 : run os c1 c2 -> run os c2 c3 -> run os c1 c3.
Proof.
  intros H12 H23. induction H23 as [ | c2 c3 c4 _ IH Hstep]; [assumption | ].
  eapply run_step; [apply IH; assumption | eassumption].
Qed.

Lemma reachable_run os c c' : reachable os c -> run os c c' -> reachable os c'.
Proof.
  intros (host & port & logger & sid & tlsc & w0 & st0 & w1 & Hnew & Hrun) H.
  exists host, port, logger, sid, tlsc, w0, st0, w1.
  split; [assumption | eapply run_trans; eassumption].
Qed.

(** ** TLS on the passive socket *)

(** Whatever [tlsConfing] is, the constructor does the same. *)
Lemma newPassiveSocket_ignores_tlsConfing os host port logger sessionID tlsConfing :
  Passive.newPassiveSocket os host port logger sessionID tlsConfing =
  Passive.newPassiveSocket os host port logger sessionID None.
Proof. reflexivity. Qed.

(** A stream behind the gate is always the raw TCP connection. *)
Lemma reachable_stream_raw os st w c :
  reachable os (st, w) -> Passive.conn (Passive.sock st) = Some c -> is_raw c = true.
Proof.
  intros Hr Hc. apply inv_reachable in Hr. destruct Hr as [_ Hinv].
  unfold untouched, settled in Hinv. rewrite Hc in Hinv.
  destruct (Passive.task st) as [ | l | l | [c' | e] | c' | | | ];
    try contradiction;
    try (destruct Hinv as (_ & Hn & _); discriminate);
    try (destruct Hinv as (Hn & _); discriminate).
  - destruct Hinv as [_ Hs]. destruct (Passive.err (Passive.sock st)); tauto.
  - destruct Hinv as [_ Hs]. destruct (Passive.err (Passive.sock st)); tauto.
Qed.

(** C1 (evaluated where it fails): a passive socket is made on 127.0.0.1,
    port 0, with a TLS configuration, and a peer connects.  The socket holds
    no TLS configuration, the goroutine listens on the plain TCP listener,
    and the stream behind the gate is the raw connection 8 of the peer, not a
    TLS connection around it; [Read] reads from that raw connection. *)
Theorem tls_config_is_dropped :
  let os := demo_net false in
  let config := demo_config in
  let bound := {| net.IP := "::"; net.Port := 40000; net.Zone := "" |} in
  exists st w st' w' w'',
    Passive.newPassiveSocket os "127.0.0.1" 0 1%nat "s1" (Some config) World0
      = Val (Ok st) w /\
    Passive.tlsConfig (Passive.sock st) = None /\
    Passive.task st = Passive.AtSetDeadline (net.TCPListener bound) /\
    goroutine_run os 5 st w = (st', w') /\
    Passive.task st' = Passive.Exited /\
    Passive.conn (Passive.sock st') = Some (net.TCPConn 8) /\
    Passive.conn (Passive.sock st') <> Some (net.TLSConn (net.TCPConn 8) config) /\
    Passive.Read os (Passive.sock st') [Byte.x00; Byte.x00; Byte.x00; Byte.x00] w'
      = Val (4, PING, None) w'' /\
    netlog w'' = (netlog w' ++ [EvRead (net.TCPConn 8) 4])%list.
Proof.
  cbv zeta. do 5 eexists.
  split; [vm_compute; reflexivity | ].
  split; [reflexivity | ].
  split; [reflexivity | ].
  split; [vm_compute; reflexivity | ].
  split; [reflexivity | ].
  split; [reflexivity | ].
  split; [discriminate | ].
  split; [vm_compute; reflexivity | reflexivity].
Qed.

(** C10: when [GoListenAndServe] has started the goroutine on a socket whose
    [tlsConfig] is set, the goroutine owns the TLS listener, its first
    statement asserts that listener to be a [*net.TCPListener], and the
    assertion panics: no deadline is set, nothing is accepted, and the
    process is gone. *)
Theorem tls_listener_assertion_panics os sessionID socket config w st w' :
  Passive.tlsConfig socket = Some config ->
  Passive.GoListenAndServe os sessionID socket w = Val (st, None) w' ->
  exists bound,
    Passive.task st =
      Passive.AtSetDeadline (net.TLSListener (net.TCPListener bound) config) /\
    Passive.goroutine os st w' =
      Val {| Passive.sock := Passive.sock st; Passive.task := Passive.Crashed |} w' /\
    forall c, ~ step os ({| Passive.sock := Passive.sock st;
                            Passive.task := Passive.Crashed |}, w') c.
Proof.
  intros Htls H. apply GoListenAndServe_started in H.
  destruct H as (laddr & bound & p & _ & _ & _ & _ & Ht & _).
  rewrite Htls in Ht. exists bound. split; [assumption | ]. split.
  - unfold Passive.goroutine. rewrite Ht. reflexivity.
  - intros [st2 w2] Hstep. apply step_cases in Hstep.
    destruct Hstep as [Hg | (_ & Halive & _)].
    + discriminate Hg.
    + apply Halive. reflexivity.
Qed.

Lemma tls_listener_assertion_panics_witness :
  let os := demo_net false in
  exists st w',
    Passive.GoListenAndServe os "s1" demo_tls_socket World0 = Val (st, None) w' /\
    exists bound,
      Passive.task st =
        Passive.AtSetDeadline (net.TLSListener (net.TCPListener bound) demo_config) /\
      Passive.goroutine os st w' =
        Val {| Passive.sock := Passive.sock st; Passive.task := Passive.Crashed |} w' /\
      forall c, ~ step os ({| Passive.sock := Passive.sock st;
                              Passive.task := Passive.Crashed |}, w') c.
Proof.
  cbv zeta. do 2 eexists. split.
  - vm_compute. reflexivity.
  - apply (tls_listener_assertion_panics (demo_net false) "s1" demo_tls_socket
             demo_config World0 _ _ eq_refl).
    vm_compute. reflexivity.
Defined.

(** [GoListenAndServe] always returns: it never panics on the index into
    [parts] and never waits.  An error it returns went to the logger. *)
Lemma GoListenAndServe_outcome os sessionID s w :
  let address := net.JoinHostPort "" (strconv.Itoa (Passive.port s)) in
  exists st err w',
    Passive.GoListenAndServe os sessionID s w = Val (st, err) w' /\
    Passive.host (Passive.sock st) = Passive.host s /\
    stdout w' = stdout w /\
    sink w' =
      (sink w ++
       match err with
       | Some e => [{| ev_logger := Passive.logger s; ev_session := sessionID;
                       ev_message := MsgError e |}]
       | None => []
       end)%list /\
    match os_ResolveTCPAddr os (netlog w) "tcp" address with
    | Err e => err = Some e /\ netlog w' = (netlog w ++ [EvResolve "tcp" address])%list
    | Ok laddr =>
        netlog w' = (netlog w ++ [EvResolve "tcp" address; EvListen "tcp" laddr])%list
    end.
Proof.
  cbv zeta. unfold Passive.GoListenAndServe. run_go.
  destruct w as [sk out log]. cbn [netlog sink stdout].
  destruct (os_ResolveTCPAddr os log "tcp" _) as [laddr | e] eqn:R.
  - destruct (os_ListenTCP os _ "tcp" laddr) as [bound | e] eqn:L.
    + cbn [net.Addr].
      destruct (index_last_part (net.TCPAddr_String bound)) as [last ->].
      destruct (strconv.Atoi last) as [p | e] eqn:A.
      * do 3 eexists. split; [reflexivity | ]. cbn [sink stdout netlog].
        rewrite app_nil_r, <- app_assoc. repeat split; reflexivity.
      * do 3 eexists. split; [reflexivity | ]. cbn [sink stdout netlog].
        rewrite <- app_assoc. repeat split; reflexivity.
    + do 3 eexists. split; [reflexivity | ]. cbn [sink stdout netlog].
      rewrite <- app_assoc. repeat split; reflexivity.
  - do 3 eexists. split; [reflexivity | ]. cbn [sink stdout netlog].
    repeat split; reflexivity.
Qed.

Lemma newPassiveSocket_outcome os host port logger sessionID tlsConfing w :
  let address := net.JoinHostPort "" (strconv.Itoa port) in
  exists r w',
    Passive.newPassiveSocket os host port logger sessionID tlsConfing w = Val r w' /\
    match r with
    | Ok st =>
        Passive.Host (Passive.sock st) = host /\
        sink w' = sink w /\
        stdout w' =
          (stdout w ++ [("open " ++ strconv.Itoa (Passive.Port (Passive.sock st)))%string])%list
    | Err e =>
        sink w' = (sink w ++ [{| ev_logger := logger; ev_session := sessionID;
                                 ev_message := MsgError e |}])%list /\
        stdout w' = stdout w
    end /\
    match os_ResolveTCPAddr os (netlog w) "tcp" address with
    | Err e => r = Err e /\ netlog w' = (netlog w ++ [EvResolve "tcp" address])%list
    | Ok laddr =>
        netlog w' = (netlog w ++ [EvResolve "tcp" address; EvListen "tcp" laddr])%list
    end.
Proof.
  cbv zeta. unfold Passive.newPassiveSocket, bind at 1.
  match goal with
  | |- context [Passive.GoListenAndServe os sessionID ?s w] =>
      destruct (GoListenAndServe_outcome os sessionID s w)
        as (st & err & w1 & -> & Hh & Ho & Hk & Hn)
  end.
  cbn [Passive.port Passive.logger Passive.host] in *.
  destruct err as [e | ].
  - exists (Err e), w1. split; [reflexivity | ]. split; [auto | ].
    destruct (os_ResolveTCPAddr os (netlog w) "tcp" _); [assumption | ].
    destruct Hn as [He Hn]. injection He as <-. auto.
  - cbv [bind Println ret]. do 2 eexists. split; [reflexivity | ].
    cbn [sink stdout netlog]. rewrite app_nil_r in Hk. rewrite Ho.
    split; [auto | ].
    destruct (os_ResolveTCPAddr os (netlog w) "tcp" _); [assumption | ].
    destruct Hn as [He _]. discriminate.
Qed.

(** ** Where the passive socket listens *)

(** C7 (as stated, refuted): a passive socket asked for host 127.0.0.1 and
    port 0 resolves [":0"], never ["127.0.0.1:0"], and listens on the
    address with the empty host that this gives; 127.0.0.1 is only what
    [Host] reports. *)
Lemma passive_socket_does_not_bind_host :
  let os := demo_net false in
  exists st w,
    Passive.newPassiveSocket os "127.0.0.1" 0 1%nat "s1" None World0 = Val (Ok st) w /\
    netlog w = [EvResolve "tcp" ":0";
                EvListen "tcp" {| net.IP := ""; net.Port := 0; net.Zone := "" |}] /\
    ~ In (EvResolve "tcp" (net.JoinHostPort "127.0.0.1" (strconv.Itoa 0))) (netlog w) /\
    (forall laddr, In (EvListen "tcp" laddr) (netlog w) -> net.IP laddr <> "127.0.0.1") /\
    Passive.Host (Passive.sock st) = "127.0.0.1".
Proof.
  cbv zeta. do 2 eexists.
  split; [vm_compute; reflexivity | ].
  split; [reflexivity | ].
  split; [ | split; [ | reflexivity]].
  - cbn. intros [H | [H | []]]; discriminate.
  - cbn. intros laddr [H | [H | []]]; [discriminate | ].
    injection H as <-. discriminate.
Qed.

(** C7 (amended): [newPassiveSocket] always returns, and on the network it
    first resolves the address made of the empty host and the requested
    port; when that resolves, it listens on exactly the resolved address and
    does nothing else.  The host it was given is what [Host] reports. *)
Theorem passive_socket_listens_on_wildcard os host port logger sessionID tlsConfing w :
  let address := net.JoinHostPort "" (strconv.Itoa port) in
  address = String ":" (strconv.Itoa port) /\
  exists r w',
    Passive.newPassiveSocket os host port logger sessionID tlsConfing w = Val r w' /\
    match os_ResolveTCPAddr os (netlog w) "tcp" address with
    | Err e => r = Err e /\ netlog w' = (netlog w ++ [EvResolve "tcp" address])%list
    | Ok laddr =>
        netlog w' = (netlog w ++ [EvResolve "tcp" address; EvListen "tcp" laddr])%list
    end /\
    match r with
    | Ok st => Passive.Host (Passive.sock st) = host
    | Err _ => True
    end.
Proof.
  cbv zeta. split; [reflexivity | ].
  destruct (newPassiveSocket_outcome os host port logger sessionID tlsConfing w)
    as (r & w' & Hnew & Hr & Hn).
  exists r, w'. split; [assumption | ]. split; [assumption | ].
  destruct r; [apply Hr | exact I].
Qed.

(** ** What reaches the logger *)

(** C6 (as stated, refuted): a passive socket is opened, a peer is accepted,
    and the socket is closed without error; nothing has gone to the logger.
    The two lines went to standard output. *)
Lemma passive_open_and_close_log_nothing :
  let os := demo_net false in
  exists st w st' w' w'',
    Passive.newPassiveSocket os "127.0.0.1" 0 1%nat "s1" None World0 = Val (Ok st) w /\
    sink w = [] /\
    goroutine_run os 5 st w = (st', w') /\
    Passive.Close os (Passive.sock st') w' = Val None w'' /\
    netlog w'' = (netlog w' ++ [EvClose (net.TCPConn 8)])%list /\
    sink w'' = [] /\
    stdout w'' = ["open 40000"; "close 40000"].
Proof.
  cbv zeta. do 5 eexists.
  split; [vm_compute; reflexivity | ].
  split; [reflexivity | ].
  split; [vm_compute; reflexivity | ].
  split; [vm_compute; reflexivity | ].
  repeat split; reflexivity.
Qed.

Lemma active_Close_outcome os socket w :
  match Active.Close os socket w with
  | Val _ w' | Panic w' =>
      sink w' = sink w /\
      stdout w' = (stdout w ++ [("close " ++ strconv.Itoa (Active.port socket))%string])%list
  | Block => False
  end.
Proof.
  unfold Active.Close. run_go. destruct (Active.conn socket); cbn; auto.
Qed.

Lemma passive_Close_outcome os socket w :
  match Passive.Close os socket w with
  | Val _ w' =>
      sink w' = sink w /\
      stdout w' =
        (stdout w ++
         match Passive.conn socket with
         | Some _ => [("close " ++ strconv.Itoa (Passive.port socket))%string]
         | None => []
         end)%list
  | _ => False
  end.
Proof.
  unfold Passive.Close. run_go. destruct (Passive.conn socket); cbn.
  - auto.
  - rewrite app_nil_r. auto.
Qed.

Lemma newActiveSocket_outcome os remote port logger sessionID w :
  let opening :=
    {| ev_logger := logger; ev_session := sessionID;
       ev_message :=
         MsgString ("Opening active data connection to "
                    ++ net.JoinHostPort remote (strconv.Itoa port)) |} in
  match Active.newActiveSocket os remote port logger sessionID w with
  | Val (Ok socket) w' =>
      sink w' = (sink w ++ [opening])%list /\
      stdout w' =
        (stdout w ++ [("open " ++ strconv.Itoa (Active.Port socket))%string])%list
  | Val (Err e) w' =>
      sink w' = (sink w ++ [opening; logged_error logger sessionID e])%list /\
      stdout w' = stdout w
  | _ => False
  end.
Proof.
  cbv zeta. unfold Active.newActiveSocket. run_go.
  destruct w as [sk out log]. cbn [netlog sink stdout].
  destruct (os_ResolveTCPAddr os log "tcp" _) as [raddr | e].
  - destruct (os_DialTimeout os _ "tcp" _ _) as [fd | e].
    + cbn. auto.
    + cbn. rewrite <- app_assoc. auto.
  - cbn. rewrite <- app_assoc. auto.
Qed.

(** C6 (amended): constructing an active socket sends the line "Opening
    active data connection to <host:port>" to the logger it was given,
    under the session's identifier, whether or not resolving and dialling
    succeed: it is the only line when the socket is handed back, and the
    error follows it, once, when construction fails.  Opening a passive
    socket sends nothing to the logger unless construction fails, and then
    the error, once; [Close] of either socket sends nothing to it.  Instead
    "open <port>" is printed on standard output when a socket of either
    kind is handed back, and "close <port>" by [Close], by a passive socket
    only when it holds a stream. *)
Theorem logger_hears_only_active_open os :
  (forall remote port logger sessionID w,
      match Active.newActiveSocket os remote port logger sessionID w with
      | Val (Ok socket) w' =>
          sink w' =
            (sink w ++
             [{| ev_logger := logger; ev_session := sessionID;
                 ev_message :=
                   MsgString ("Opening active data connection to "
                              ++ net.JoinHostPort remote (strconv.Itoa port)) |}])%list /\
          stdout w' =
            (stdout w ++ [("open " ++ strconv.Itoa (Active.Port socket))%string])%list
      | Val (Err e) w' =>
          sink w' =
            (sink w ++
             [{| ev_logger := logger; ev_session := sessionID;
                 ev_message :=
                   MsgString ("Opening active data connection to "
                              ++ net.JoinHostPort remote (strconv.Itoa port)) |};
              {| ev_logger := logger; ev_session := sessionID;
                 ev_message := MsgError e |}])%list /\
          stdout w' = stdout w
      | _ => False
      end) /\
  (forall socket w,
      match Active.Close os socket w with
      | Val _ w' | Panic w' =>
          sink w' = sink w /\
          stdout w' =
            (stdout w ++ [("close " ++ strconv.Itoa (Active.port socket))%string])%list
      | Block => False
      end) /\
  (forall host port logger sessionID tlsConfing w,
      match Passive.newPassiveSocket os host port logger sessionID tlsConfing w with
      | Val (Ok st) w' =>
          sink w' = sink w /\
          stdout w' =
            (stdout w ++
             [("open " ++ strconv.Itoa (Passive.Port (Passive.sock st)))%string])%list
      | Val (Err e) w' =>
          sink w' = (sink w ++ [{| ev_logger := logger; ev_session := sessionID;
                                   ev_message := MsgError e |}])%list /\
          stdout w' = stdout w
      | _ => False
      end) /\
  (forall socket w,
      match Passive.Close os socket w with
      | Val _ w' =>
          sink w' = sink w /\
          stdout w' =
            (stdout w ++
             match Passive.conn socket with
             | Some _ => [("close " ++ strconv.Itoa (Passive.port socket))%string]
             | None => []
             end)%list
      | _ => False
      end).
Proof.
  split; [ | split; [ | split]].
  - intros. apply newActiveSocket_outcome.
  - intros. apply active_Close_outcome.
  - intros.
    destruct (newPassiveSocket_outcome os host port logger sessionID tlsConfing w)
      as (r & w' & -> & Hr & _).
    destruct r; [destruct Hr as (_ & Hk & Ho); auto | assumption].
  - intros. apply passive_Close_outcome.
Qed.

(** ** The active socket *)

Lemma conn_Read_returns os c p w :
  exists r w',
    conn_Read os c p w = Val r w' /\
    sink w' = sink w /\ stdout w' = stdout w /\
    netlog w' = (netlog w ++ [EvRead c (List.length p)])%list.
Proof.
  unfold conn_Read. run_go. destruct (os_Read os _ c _) as [data e].
  do 2 eexists. split; [reflexivity | ]. cbn. auto.
Qed.

Lemma conn_Write_returns os c p w :
  exists r w',
    conn_Write os c p w = Val r w' /\
    sink w' = sink w /\ stdout w' = stdout w /\
    netlog w' = (netlog w ++ [EvWrite c p])%list.
Proof.
  unfold conn_Write. run_go. do 2 eexists. split; [reflexivity | ]. cbn. auto.
Qed.

(** C5: [newActiveSocket] resolves and then dials with a timeout of 15
    seconds, in that order and within the call.  When resolving fails, the
    error comes back with no socket and nothing was dialled; when dialling
    fails, the error comes back with no socket; otherwise the socket holds
    the dialled connection, and [Read], [Write] and [Close] go straight to
    it: they never wait and never panic. *)
Theorem active_construction_all_or_nothing os remote port logger sessionID w :
  let connectTo := net.JoinHostPort remote (strconv.Itoa port) in
  let resolved := (netlog w ++ [EvResolve "tcp" connectTo])%list in
  match os_ResolveTCPAddr os (netlog w) "tcp" connectTo with
  | Err e =>
      exists w',
        Active.newActiveSocket os remote port logger sessionID w = Val (Err e) w' /\
        netlog w' = resolved
  | Ok raddr =>
      let dialled :=
        (resolved ++ [EvDial "tcp" (net.TCPAddr_String raddr) 15000000000])%list in
      match os_DialTimeout os resolved "tcp" (net.TCPAddr_String raddr)
              (15 * time.Second) with
      | Err e =>
          exists w',
            Active.newActiveSocket os remote port logger sessionID w = Val (Err e) w' /\
            netlog w' = dialled
      | Ok fd =>
          exists socket w',
            Active.newActiveSocket os remote port logger sessionID w
              = Val (Ok socket) w' /\
            netlog w' = dialled /\
            Active.conn socket = Some (net.TCPConn fd) /\
            Active.Host socket = remote /\
            Active.Port socket = port /\
            (forall p w1,
                Active.Read os socket p w1 = conn_Read os (net.TCPConn fd) p w1 /\
                exists r w2, Active.Read os socket p w1 = Val r w2) /\
            (forall p w1,
                Active.Write os socket p w1 = conn_Write os (net.TCPConn fd) p w1 /\
                exists r w2, Active.Write os socket p w1 = Val r w2) /\
            (forall w1,
                Active.Close os socket w1 =
                  (Println "close" port ;; conn_Close os (net.TCPConn fd)) w1 /\
                exists r w2, Active.Close os socket w1 = Val r w2)
      end
  end.
Proof.
  cbv zeta. unfold Active.newActiveSocket. run_go.
  destruct w as [sk out log]. cbn [netlog sink stdout].
  destruct (os_ResolveTCPAddr os log "tcp" _) as [raddr | e].
  - change (15 * time.Second) with 15000000000.
    destruct (os_DialTimeout os _ "tcp" _ _) as [fd | e].
    + do 2 eexists. split; [reflexivity | ]. cbn.
      split; [reflexivity | ]. split; [reflexivity | ].
      split; [reflexivity | ]. split; [reflexivity | ].
      split; [ | split].
      * intros p w1. split; [reflexivity | ].
        destruct (conn_Read_returns os (net.TCPConn fd) p w1) as (r & w2 & H & _).
        exists r, w2. exact H.
      * intros p w1. split; [reflexivity | ].
        destruct (conn_Write_returns os (net.TCPConn fd) p w1) as (r & w2 & H & _).
        exists r, w2. exact H.
      * intros w1. split; [reflexivity | ]. do 2 eexists. reflexivity.
    + eexists. split; reflexivity.
  - eexists. split; reflexivity.
Qed.

(** Dialling the refused port 9 gives the error and no socket; the logger got
    the opening line and the error. *)
Example active_dial_refused :
  exists w,
    Active.newActiveSocket (demo_net false) "10.0.0.1" 9 1%nat "s1" World0
      = Val (Err (OpError "dial tcp 10.0.0.1:9: connect: connection refused")) w /\
    netlog w = [EvResolve "tcp" "10.0.0.1:9"; EvDial "tcp" "10.0.0.1:9" 15000000000] /\
    List.length (sink w) = 2%nat /\
    stdout w = [].
Proof. eexists. split; [vm_compute; reflexivity | repeat split; reflexivity]. Qed.

Example active_dial_accepted :
  exists w,
    Active.newActiveSocket (demo_net false) "10.0.0.1" 21 1%nat "s1" World0
      = Val (Ok {| Active.conn := Some (net.TCPConn 7); Active.host := "10.0.0.1";
                   Active.port := 21; Active.logger := 1%nat |}) w /\
    stdout w = ["open 21"].
Proof. eexists. split; [vm_compute; reflexivity | reflexivity]. Qed.

(** ** The port of the passive socket *)

Lemma port_goroutine os st w st' w' :
  Passive.goroutine os st w = Val st' w' ->
  Passive.port (Passive.sock st') = Passive.port (Passive.sock st).
Proof.
  intros H. apply goroutine_cases in H. cbv zeta in H.
  destruct (Passive.task st) as [ | [laddr | inner config] | l | [c | e] | c | | | ];
    try contradiction; try (subst st'; reflexivity).
  destruct (Passive.wg (Passive.sock st)); subst st'; reflexivity.
Qed.

Lemma port_run os c c' :
  run os c c' ->
  Passive.port (Passive.sock (fst c')) = Passive.port (Passive.sock (fst c)).
Proof.
  induction 1 as [c | c1 [st2 w2] [st3 w3] _ IH Hstep]; [reflexivity | ].
  rewrite <- IH. apply step_cases in Hstep. destruct Hstep as [H | (-> & _)].
  - eapply port_goroutine; eassumption.
  - reflexivity.
Qed.

Lemma demo_net_binds_real_ports quiet : binds_real_ports (demo_net quiet).
Proof.
  intros h network laddr bound. cbn. unfold demo_listen.
  destruct ((0 <=? net.Port laddr) && (net.Port laddr <=? 65535)) eqn:E; [ | discriminate].
  apply andb_true_iff in E. destruct E as [E1 E2].
  apply Z.leb_le in E1. apply Z.leb_le in E2.
  intros H. injection H as <-. cbn.
  destruct (net.Port laddr =? 0) eqn:Z0; [lia | apply Z.eqb_neq in Z0; lia].
Qed.

(** C3: a passive socket made with port 0 asks the operating system for a
    listener on the address that [":0"] resolves to, and reports the port
    of the address the operating system bound that listener to.  This port
    is not 0, the port asked for, and the socket keeps reporting it
    whatever happens afterwards. *)
Theorem port_zero_reports_bound_port os host logger sessionID tlsConfing w0 st w :
  binds_real_ports os ->
  Passive.newPassiveSocket os host 0 logger sessionID tlsConfing w0 = Val (Ok st) w ->
  exists laddr bound,
    os_ResolveTCPAddr os (netlog w0) "tcp" ":0" = Ok laddr /\
    os_ListenTCP os (netlog w0 ++ [EvResolve "tcp" ":0"]) "tcp" laddr = Ok bound /\
    netlog w = (netlog w0 ++ [EvResolve "tcp" ":0"; EvListen "tcp" laddr])%list /\
    Passive.task st = Passive.AtSetDeadline (net.TCPListener bound) /\
    Passive.Port (Passive.sock st) = net.Port bound /\
    Passive.Port (Passive.sock st) <> 0 /\
    forall st' w',
      run os (st, w) (st', w') -> Passive.Port (Passive.sock st') = net.Port bound.
Proof.
  intros Hos Hnew. apply newPassiveSocket_started in Hnew.
  destruct Hnew as (laddr & bound & p & R & L & Hp & Hs & Ht & _ & _ & Hn).
  cbv zeta in R, L, Hn.
  change (net.JoinHostPort "" (strconv.Itoa 0)) with ":0" in R, L, Hn.
  pose proof (Hos _ _ _ _ L) as Hb.
  assert (Hport : Passive.Port (Passive.sock st) = net.Port bound).
  { rewrite Hs. cbn. apply Hp. unfold strconv.maxInt. lia. }
  exists laddr, bound.
  split; [assumption | ]. split; [assumption | ].
  split; [rewrite Hn, <- app_assoc; reflexivity | ].
  split; [assumption | ]. split; [assumption | ].
  split; [lia | ].
  intros st' w' Hrun. apply port_run in Hrun. cbn in Hrun.
  unfold Passive.Port in *. congruence.
Qed.

Lemma port_zero_reports_bound_port_witness :
  let os := demo_net false in
  exists st w,
    Passive.newPassiveSocket os "127.0.0.1" 0 1%nat "s1" None World0 = Val (Ok st) w /\
    exists laddr bound,
      os_ResolveTCPAddr os (netlog World0) "tcp" ":0" = Ok laddr /\
      os_ListenTCP os (netlog World0 ++ [EvResolve "tcp" ":0"]) "tcp" laddr = Ok bound /\
      netlog w = (netlog World0 ++ [EvResolve "tcp" ":0"; EvListen "tcp" laddr])%list /\
      Passive.task st = Passive.AtSetDeadline (net.TCPListener bound) /\
      Passive.Port (Passive.sock st) = net.Port bound /\
      Passive.Port (Passive.sock st) <> 0 /\
      forall st' w',
        run os (st, w) (st', w') -> Passive.Port (Passive.sock st') = net.Port bound.
Proof.
  cbv zeta. do 2 eexists. split.
  - vm_compute. reflexivity.
  - apply (port_zero_reports_bound_port (demo_net false) "127.0.0.1" 1%nat "s1" None
             World0 _ _ (demo_net_binds_real_ports false)).
    vm_compute. reflexivity.
Defined.

(** ** Closing a passive socket nobody connected to *)

Lemma no_peer_goroutine os st w st' w' :
  Passive.goroutine os st w = Val st' w' ->
  Passive.conn (Passive.sock st) = None ->
  (forall c, Passive.task st <> Passive.AfterAccept (Ok c)) ->
  (forall c, Passive.task st <> Passive.AtSetConn c) ->
  Passive.conn (Passive.sock st') = None /\
  (forall c, Passive.task st' <> Passive.AtSetConn c).
Proof.
  intros H Hc Hok Hset. apply goroutine_cases in H. cbv zeta in H.
  destruct (Passive.task st) as [ | [laddr | inner config] | l | [c | e] | c | | | ];
    try contradiction; try (subst st'; cbn; split; [assumption | discriminate]).
  - exfalso. apply (Hok c). reflexivity.
  - exfalso. apply (Hset c). reflexivity.
  - destruct (Passive.wg (Passive.sock st)); subst st'; cbn;
      (split; [assumption | discriminate]).
Qed.

Lemma no_peer_run os c c' :
  run_without_peer os c c' ->
  Passive.conn (Passive.sock (fst c)) = None ->
  (forall x, Passive.task (fst c) <> Passive.AfterAccept (Ok x)) ->
  (forall x, Passive.task (fst c) <> Passive.AtSetConn x) ->
  Passive.conn (Passive.sock (fst c')) = None /\
  (forall x, Passive.task (fst c') <> Passive.AfterAccept (Ok x)) /\
  (forall x, Passive.task (fst c') <> Passive.AtSetConn x).
Proof.
  induction 1 as [c | c1 [st2 w2] [st3 w3] _ IH Hstep Hno]; intros Hc Hok Hset.
  - auto.
  - destruct (IH Hc Hok Hset) as (Hc2 & Hok2 & Hset2). cbn [fst] in *.
    apply step_cases in Hstep. destruct Hstep as [H | (-> & _)].
    + destruct (no_peer_goroutine os st2 w2 st3 w3 H Hc2 Hok2 Hset2). auto.
    + auto.
Qed.

Lemma Close_times_nil os socket w :
  Passive.conn socket = None ->
  forall n, Close_times os n socket w = Val (repeat None n) w.
Proof.
  intros Hc n. induction n as [ | n IH]; [reflexivity | ].
  cbn [Close_times repeat]. unfold bind at 1, Passive.Close. rewrite Hc.
  unfold ret at 1. unfold bind at 1. rewrite IH. reflexivity.
Qed.

(** C4: as long as the accept of its goroutine has returned no connection, a
    passive socket answers [Close] with nil and is left as it was, so
    [Close] can be called any number of times and answers nil every time;
    nothing is printed and nothing on the network is touched. *)
Theorem close_without_peer_is_nil os host port logger sessionID tlsConfing w0 st0 w1 st w :
  Passive.newPassiveSocket os host port logger sessionID tlsConfing w0 = Val (Ok st0) w1 ->
  run_without_peer os (st0, w1) (st, w) ->
  Passive.Close os (Passive.sock st) w = Val None w /\
  forall n, Close_times os n (Passive.sock st) w = Val (repeat None n) w.
Proof.
  intros Hnew Hrun. apply newPassiveSocket_started in Hnew.
  destruct Hnew as (laddr & bound & p & _ & _ & _ & Hs & Ht & _).
  apply no_peer_run in Hrun; cbn [fst].
  - destruct Hrun as (Hc & _). cbn [fst] in Hc. split.
    + unfold Passive.Close. rewrite Hc. reflexivity.
    + apply Close_times_nil. assumption.
  - rewrite Hs. reflexivity.
  - rewrite Ht. discriminate.
  - rewrite Ht. discriminate.
Qed.

Lemma rwp_cons os c1 c2 c3 :
  step os c1 c2 ->
  (forall c, Passive.task (fst c2) <> Passive.AfterAccept (Ok c)) ->
  run_without_peer os c2 c3 ->
  run_without_peer os c1 c3.
Proof.
  intros Hstep Hno H. induction H as [c2 | c2 c3 c4 _ IH Hs Hn].
  - eapply rwp_step; [apply rwp_refl | eassumption | assumption].
  - eapply rwp_step; [apply IH; assumption | eassumption | assumption].
Qed.

Lemma run_cons os c1 c2 c3 : step os c1 c2 -> run os c2 c3 -> run os c1 c3.
Proof.
  intros Hstep H. eapply run_trans; [ | exact H].
  eapply run_step; [apply run_refl | exact Hstep].
Qed.

Lemma goroutine_run_is_run os n :
  forall st w, run os (st, w) (goroutine_run os n st w).
Proof.
  induction n as [ | n IH]; intros st w; cbn [goroutine_run]; [apply run_refl | ].
  destruct (Passive.goroutine os st w) as [st' w' | w' | ] eqn:G; try apply run_refl.
  eapply run_cons; [apply step_goroutine; exact G | apply IH].
Qed.

Ltac goroutine_steps :=
  repeat (eapply rwp_cons;
          [apply step_goroutine; reflexivity | intros ?; cbn; discriminate | ]);
  apply rwp_refl.

Lemma close_without_peer_is_nil_witness :
  let os := demo_net true in
  let c0 := demo_started true in
  let c := demo_after true 4 in
  Passive.task (fst c) = Passive.Exited /\
  Passive.Close os (Passive.sock (fst c)) (snd c) = Val None (snd c) /\
  forall n, Close_times os n (Passive.sock (fst c)) (snd c) = Val (repeat None n) (snd c).
Proof.
  cbv zeta. split; [reflexivity | ].
  apply (close_without_peer_is_nil (demo_net true) "127.0.0.1" 0 1%nat "s1" None World0
           (fst (demo_started true)) (snd (demo_started true))).
  - vm_compute. reflexivity.
  - unfold demo_after. cbn [goroutine_run].
    change (demo_started true) with
      (fst (demo_started true), snd (demo_started true)) at 1.
    goroutine_steps.
Defined.

(** ** The readiness gate *)

Lemma inv_not_both st :
  inv st ->
  ~ (Passive.conn (Passive.sock st) <> None /\ Passive.err (Passive.sock st) <> None).
Proof.
  intros [_ Hinv] [Hc He]. unfold untouched, settled in Hinv.
  destruct (Passive.task st) as [ | l | l | [c | e] | c | | | ];
    try contradiction;
    try (destruct Hinv as (_ & Hn & _); congruence);
    try (destruct Hinv as (Hn & _); congruence);
    destruct Hinv as [_ Hs];
    destruct (Passive.conn (Passive.sock st)), (Passive.err (Passive.sock st));
    try contradiction; congruence.
Qed.

Lemma inv_gate_armed st : inv st -> gate (Passive.sock st) <> Unarmed.
Proof.
  intros [_ Hinv]. unfold gate, untouched, settled in *.
  destruct (Passive.task st) as [ | l | l | [c | e] | c | | | ];
    try contradiction;
    try (destruct Hinv as (_ & -> & _ & ->); discriminate);
    try (destruct Hinv as (-> & _ & ->); discriminate);
    destruct Hinv as [Hw Hs];
    destruct (Passive.conn (Passive.sock st)), (Passive.err (Passive.sock st));
    try contradiction; try discriminate;
    rewrite Hw; discriminate.
Qed.

Lemma untouched_pending s : untouched s -> gate s = Pending.
Proof. intros (Hc & _ & Hw). unfold gate. rewrite Hc, Hw. reflexivity. Qed.

(** A statement of the goroutine leaves the gate alone or takes it out of
    [Pending]. *)
Lemma gate_goroutine os st w st' w' :
  inv st -> Passive.goroutine os st w = Val st' w' ->
  gate (Passive.sock st') = gate (Passive.sock st) \/ gate (Passive.sock st) = Pending.
Proof.
  intros [_ Hinv] H. apply goroutine_cases in H. cbv zeta in H.
  destruct (Passive.task st) as [ | [laddr | inner config] | l | [c | e] | c | | | ];
    try contradiction.
  - subst st'. left. reflexivity.
  - subst st'. left. reflexivity.
  - subst st'. left. reflexivity.
  - right. apply untouched_pending. apply Hinv.
  - right. apply untouched_pending. exact Hinv.
  - right. apply untouched_pending. apply Hinv.
  - destruct Hinv as [Hw Hs]. rewrite Hw in H. subst st'.
    unfold settled in Hs. unfold gate. cbn. rewrite Hw.
    destruct (Passive.conn (Passive.sock st)); [left; reflexivity | right; reflexivity].
Qed.

Lemma gate_run os c c' :
  run os c c' -> inv (fst c) ->
  gate (Passive.sock (fst c')) = gate (Passive.sock (fst c))
  \/ gate (Passive.sock (fst c)) = Pending.
Proof.
  induction 1 as [c | c1 [st2 w2] [st3 w3] Hrun IH Hstep]; intros Hinv.
  - left. reflexivity.
  - destruct (IH Hinv) as [IH' | IH']; [ | right; assumption].
    pose proof (inv_run os _ _ Hrun Hinv) as Hinv2. cbn [fst] in *.
    apply step_cases in Hstep. destruct Hstep as [H | (-> & _)].
    + destruct (gate_goroutine os st2 w2 st3 w3 Hinv2 H) as [G | G].
      * left. congruence.
      * right. congruence.
    + left. assumption.
Qed.

(** C8: in every configuration a passive socket can reach, stream and error
    are never both there and the gate is [Pending], [Ready] or [Failed];
    whatever happens later, the gate is what it was unless it was [Pending].
    So it leaves [Pending] at most once, for one of the two other states,
    and stays there. *)
Theorem gate_resolves_once os c :
  reachable os c ->
  let s := Passive.sock (fst c) in
  ~ (Passive.conn s <> None /\ Passive.err s <> None) /\
  (gate s = Pending \/ (exists stream, gate s = Ready stream) \/ (exists e, gate s = Failed e)) /\
  forall c', run os c c' -> gate (Passive.sock (fst c')) = gate s \/ gate s = Pending.
Proof.
  destruct c as [st w]. intros Hr. cbv zeta. cbn [fst].
  pose proof (inv_reachable os st w Hr) as Hinv.
  split; [apply inv_not_both; assumption | ]. split.
  - pose proof (inv_gate_armed st Hinv) as Ha.
    destruct (gate (Passive.sock st)) as [ | stream | e | ]; eauto. congruence.
  - intros c' Hrun. apply (gate_run os _ _ Hrun). assumption.
Qed.

Lemma demo_reachable quiet n : reachable (demo_net quiet) (demo_after quiet n).
Proof.
  exists "127.0.0.1", 0, 1%nat, "s1", None, World0,
    (fst (demo_started quiet)), (snd (demo_started quiet)).
  split.
  - destruct quiet; vm_compute; reflexivity.
  - apply goroutine_run_is_run.
Qed.

Lemma gate_resolves_once_witness :
  let os := demo_net false in
  let c := demo_after false 3 in
  let s := Passive.sock (fst c) in
  gate s = Pending /\
  gate (Passive.sock (fst (demo_after false 4))) = Ready (net.TCPConn 8) /\
  ~ (Passive.conn s <> None /\ Passive.err s <> None) /\
  (gate s = Pending \/ (exists stream, gate s = Ready stream) \/ (exists e, gate s = Failed e)) /\
  forall c', run os c c' -> gate (Passive.sock (fst c')) = gate s \/ gate s = Pending.
Proof.
  cbv zeta. split; [reflexivity | ]. split; [reflexivity | ].
  apply (gate_resolves_once (demo_net false) (demo_after false 3)).
  apply demo_reachable.
Defined.

(** ** An accept that fails *)

Lemma accept_failed_goroutine os e st w st' w' :
  accept_failed e st -> Passive.goroutine os st w = Val st' w' ->
  accept_failed e st' /\ w' = w.
Proof.
  intros Hf H. pose proof H as Hw'. apply goroutine_cases in H. cbv zeta in H.
  unfold accept_failed, untouched, Passive.goroutine in *.
  destruct st as [s t]. cbn [Passive.sock Passive.task] in *.
  destruct t as [ | [laddr | inner config] | l | [c | e'] | c | | | ];
    try contradiction.
  - destruct Hf as (-> & Hc & He & Hw). subst st'.
    split; [cbn; auto | unfold ret in Hw'; congruence].
  - destruct Hf as (Hc & He & Hw). rewrite Hw in H, Hw'. subst st'.
    split; [cbn; auto | unfold ret in Hw'; congruence].
Qed.

Lemma accept_failed_calls os e st w p :
  accept_failed e st ->
  match Passive.task st with
  | Passive.Exited =>
      Passive.Read os (Passive.sock st) p w = Val (0, p, Some e) w /\
      (forall q, Passive.Write os (Passive.sock st) q w = Val (0, Some e) w)
  | _ =>
      Passive.Read os (Passive.sock st) p w = Block /\
      (forall q, Passive.Write os (Passive.sock st) q w = Block)
  end.
Proof.
  unfold accept_failed, untouched, Passive.Read, Passive.Write, Passive.waitForOpenSocket.
  run_go.
  destruct (Passive.task st) as [ | l | l | [c | e'] | c | | | ]; try contradiction.
  - intros (_ & -> & _ & ->). auto.
  - intros (-> & _ & ->). auto.
  - intros (-> & -> & ->). auto.
Qed.

Lemma accept_failed_conn e st :
  accept_failed e st -> Passive.conn (Passive.sock st) = None.
Proof.
  unfold accept_failed, untouched.
  destruct (Passive.task st) as [ | l | l | [c | e'] | c | | | ]; try contradiction.
  - intros (_ & H & _). exact H.
  - intros (H & _). exact H.
  - intros (H & _). exact H.
Qed.

(** After a failed accept no transition changes the world. *)
Lemma accept_failed_step os e st w st' w' :
  accept_failed e st -> step os (st, w) (st', w') -> accept_failed e st' /\ w' = w.
Proof.
  intros Hf Hstep. apply step_cases in Hstep.
  destruct Hstep as [H | (-> & _ & [(p & r & H) | [(p & r & H) | (r & H)]])].
  - exact (accept_failed_goroutine os e st w st' w' Hf H).
  - split; [assumption | ].
    pose proof (accept_failed_calls os e st w p Hf) as Hc.
    destruct (Passive.task st); destruct Hc as [Hc _]; rewrite Hc in H;
      try discriminate H; injection H as _ <-; reflexivity.
  - split; [assumption | ].
    pose proof (accept_failed_calls os e st w [] Hf) as Hc.
    destruct (Passive.task st); destruct Hc as [_ Hc]; rewrite (Hc p) in H;
      try discriminate H; injection H as _ <-; reflexivity.
  - split; [assumption | ].
    unfold Passive.Close in H. rewrite (accept_failed_conn e st Hf) in H.
    injection H as _ <-. reflexivity.
Qed.

Lemma accept_failed_run os e c c' :
  run os c c' -> accept_failed e (fst c) ->
  accept_failed e (fst c') /\ snd c' = snd c.
Proof.
  induction 1 as [c | c1 [st2 w2] [st3 w3] _ IH Hstep]; intros Hf; [auto | ].
  destruct (IH Hf) as [Hf2 Hw2]. cbn [fst snd] in *.
  destruct (accept_failed_step os e st2 w2 st3 w3 Hf2 Hstep) as [Hf3 Hw3].
  split; [assumption | congruence].
Qed.

Lemma accept_failed_exits os e st w :
  accept_failed e st -> Passive.task (fst (goroutine_run os 2 st w)) = Passive.Exited.
Proof.
  unfold accept_failed, untouched. destruct st as [s t]. cbn [Passive.sock Passive.task].
  destruct t as [ | l | l | [c | e'] | c | | | ]; try contradiction.
  - intros (_ & _ & _ & Hw). cbn. run_go. cbn. rewrite Hw. reflexivity.
  - intros (_ & _ & Hw). cbn. run_go. cbn. rewrite Hw. reflexivity.
  - intros _. reflexivity.
Qed.

(** C2: once the accept of the goroutine has returned the error [e], the
    goroutine needs at most two more statements to finish, and nothing that
    happens from then on changes the world: nothing is read from, written
    to or accepted on the network again.  In every later configuration
    [Read] and [Write] wait while the goroutine has not finished, and after
    that return 0 bytes and [e], always the same, leaving the buffer as it
    was. *)
Theorem accept_failure_is_final os st w e :
  reachable os (st, w) ->
  Passive.task st = Passive.AfterAccept (Err e) ->
  forall st' w',
    run os (st, w) (st', w') ->
    w' = w /\
    Passive.task (fst (goroutine_run os 2 st' w')) = Passive.Exited /\
    forall p,
      match Passive.task st' with
      | Passive.Exited =>
          Passive.Read os (Passive.sock st') p w' = Val (0, p, Some e) w' /\
          (forall q, Passive.Write os (Passive.sock st') q w' = Val (0, Some e) w')
      | _ =>
          Passive.Read os (Passive.sock st') p w' = Block /\
          (forall q, Passive.Write os (Passive.sock st') q w' = Block)
      end.
Proof.
  intros Hr Ht st' w' Hrun.
  assert (Hf : accept_failed e st).
  { apply inv_reachable in Hr. destruct Hr as [_ Hinv].
    unfold accept_failed. rewrite Ht in *. auto. }
  apply (accept_failed_run os e _ _ Hrun) in Hf. cbn [fst snd] in Hf.
  destruct Hf as [Hf Hw]. split; [assumption | ]. split.
  - apply accept_failed_exits with (e := e). assumption.
  - intros p. apply accept_failed_calls. assumption.
Qed.

Lemma accept_failure_is_final_witness :
  let os := demo_net true in
  let timeout := OpError "accept tcp [::]:40000: i/o timeout" in
  let c := demo_after true 4 in
  Passive.task (fst c) = Passive.Exited /\
  snd c = snd (demo_after true 2) /\
  Passive.task (fst (goroutine_run os 2 (fst c) (snd c))) = Passive.Exited /\
  forall p,
    Passive.Read os (Passive.sock (fst c)) p (snd c) = Val (0, p, Some timeout) (snd c) /\
    (forall q, Passive.Write os (Passive.sock (fst c)) q (snd c)
               = Val (0, Some timeout) (snd c)).
Proof.
  cbv zeta. split; [reflexivity | ].
  apply (accept_failure_is_final (demo_net true)
           (fst (demo_after true 2)) (snd (demo_after true 2))
           (OpError "accept tcp [::]:40000: i/o timeout")
           ltac:(rewrite <- surjective_pairing; apply demo_reachable)
           eq_refl
           (fst (demo_after true 4)) (snd (demo_after true 4))).
  change (fst (demo_after true 4), snd (demo_after true 4))
    with (goroutine_run (demo_net true) 2
            (fst (demo_after true 2)) (snd (demo_after true 2))).
  apply goroutine_run_is_run.
Defined.

(** ** Waiting for the gate *)

(** [Read] and [Write] wait exactly when the gate is [Pending]. *)
Lemma calls_wait_iff_pending os s p w :
  (Passive.Read os s p w = Block <-> gate s = Pending) /\
  (Passive.Write os s p w = Block <-> gate s = Pending).
Proof.
  unfold Passive.Read, Passive.Write, Passive.waitForOpenSocket, gate. run_go.
  destruct w as [sk out log]. destruct (Passive.conn s) as [c | ]; cbn.
  - destruct (os_Read os log c (List.length p)).
    split; split; intros H; discriminate H.
  - destruct (Passive.wg s); cbn.
    + destruct (Passive.err s); split; split; intros H; discriminate H.
    + split; split; reflexivity.
Qed.

Lemma calls_on_resolved_gate os s p w :
  match gate s with
  | Ready c =>
      Passive.Read os s p w = conn_Read os c p w /\
      Passive.Write os s p w = conn_Write os c p w
  | Failed e =>
      Passive.Read os s p w = Val (0, p, Some e) w /\
      Passive.Write os s p w = Val (0, Some e) w
  | Pending | Unarmed => True
  end.
Proof.
  unfold gate, Passive.Read, Passive.Write, Passive.waitForOpenSocket. run_go.
  destruct (Passive.conn s) as [c | ]; [split; reflexivity | ].
  destruct (Passive.wg s); [ | exact I].
  destruct (Passive.err s); [split; reflexivity | exact I].
Qed.

Lemma inv_gate_by_task st :
  inv st ->
  match gate (Passive.sock st) with
  | Pending => Passive.task st <> Passive.Exited
  | Ready _ => accept_returned (Passive.task st) = true
  | Failed _ => Passive.task st = Passive.Exited
  | Unarmed => False
  end.
Proof.
  intros [_ Hinv]. unfold gate, untouched, settled in *.
  destruct (Passive.task st) as [ | l | l | [c | e] | c | | | ];
    try contradiction;
    try (destruct Hinv as (_ & -> & _ & ->); discriminate);
    try (destruct Hinv as (-> & _ & ->); discriminate);
    destruct Hinv as [-> Hs];
    destruct (Passive.conn (Passive.sock st)), (Passive.err (Passive.sock st));
    try contradiction; try reflexivity; discriminate.
Qed.

(** C9: on a passive socket [Read] and [Write] wait exactly while the gate is
    [Pending].  The gate is [Pending] as long as the accept of the goroutine
    has not returned, so no call returns before a peer has connected or the
    accept has failed; it is not [Pending] once the goroutine has finished.
    When the gate is [Ready] the calls go to the stream without waiting,
    and when it is [Failed] they return its error without waiting. *)
Theorem read_write_wait_for_gate os st w p :
  reachable os (st, w) ->
  let s := Passive.sock st in
  (Passive.Read os s p w = Block <-> gate s = Pending) /\
  (Passive.Write os s p w = Block <-> gate s = Pending) /\
  (accept_returned (Passive.task st) = false -> gate s = Pending) /\
  (Passive.task st = Passive.Exited -> gate s <> Pending) /\
  match gate s with
  | Pending => Passive.task st <> Passive.Exited
  | Ready c =>
      accept_returned (Passive.task st) = true /\
      Passive.Read os s p w = conn_Read os c p w /\
      Passive.Write os s p w = conn_Write os c p w /\
      (exists r w', Passive.Read os s p w = Val r w') /\
      (exists r w', Passive.Write os s p w = Val r w')
  | Failed e =>
      Passive.task st = Passive.Exited /\
      Passive.Read os s p w = Val (0, p, Some e) w /\
      Passive.Write os s p w = Val (0, Some e) w
  | Unarmed => False
  end.
Proof.
  intros Hr. cbv zeta. apply inv_reachable in Hr.
  pose proof (inv_gate_by_task st Hr) as Hg.
  pose proof (calls_on_resolved_gate os (Passive.sock st) p w) as Hc.
  destruct (calls_wait_iff_pending os (Passive.sock st) p w) as [HR HW].
  split; [exact HR | ]. split; [exact HW | ].
  split; [ | split].
  - intros Ha. destruct (gate (Passive.sock st)) as [ | c | e | ];
      [reflexivity | congruence | rewrite Hg in Ha; discriminate | contradiction].
  - intros He Hp. rewrite Hp in Hg. contradiction.
  - destruct (gate (Passive.sock st)) as [ | c | e | ]; try assumption.
    + destruct Hc as [Hcr Hcw]. split; [assumption | ].
      split; [assumption | ]. split; [assumption | ]. split.
      * rewrite Hcr. destruct (conn_Read_returns os c p w) as (r & w' & H & _). eauto.
      * rewrite Hcw. destruct (conn_Write_returns os c p w) as (r & w' & H & _). eauto.
    + destruct Hc as [Hcr Hcw]. auto.
Qed.

Lemma read_write_wait_for_gate_witness :
  let os := demo_net false in
  let c := demo_after false 1 in
  let s := Passive.sock (fst c) in
  Passive.task (fst c)
    = Passive.AtAccept
        (net.TCPListener {| net.IP := "::"; net.Port := 40000; net.Zone := "" |}) /\
  Passive.Read os s PING (snd c) = Block /\
  Passive.Write os s PING (snd c) = Block.
Proof.
  cbv zeta. split; [reflexivity | ].
  destruct (read_write_wait_for_gate (demo_net false)
              (fst (demo_after false 1)) (snd (demo_after false 1)) PING
              ltac:(rewrite <- surjective_pairing; apply demo_reachable))
    as (HR & HW & Hpending & _).
  split; [apply HR | apply HW]; apply Hpending; reflexivity.
Defined.

(** * Further properties of the sockets *)

(** ** Construction of the passive socket *)

(** X1: when the address resolves and the listener is bound, to a port that
    fits an int, construction cannot fail any more: reading the port back
    from the printed address never errs, whatever the host part looks like.
    The socket reports the bound port, whatever port was asked for, counts
    one goroutine and holds neither stream nor error. *)
Theorem passive_construction_succeeds
  os host port logger sessionID tlsConfing w laddr bound :
  let address := net.JoinHostPort "" (strconv.Itoa port) in
  os_ResolveTCPAddr os (netlog w) "tcp" address = Ok laddr ->
  os_ListenTCP os (netlog w ++ [EvResolve "tcp" address]) "tcp" laddr = Ok bound ->
  0 <= net.Port bound <= strconv.maxInt ->
  exists st w',
    Passive.newPassiveSocket os host port logger sessionID tlsConfing w = Val (Ok st) w' /\
    Passive.sock st =
      {| Passive.conn := None; Passive.port := net.Port bound; Passive.host := host;
         Passive.logger := logger; Passive.wg := 1; Passive.err := None;
         Passive.tlsConfig := None |} /\
    Passive.task st = Passive.AtSetDeadline (net.TCPListener bound).
Proof.
  cbv zeta. intros R L Hp.
  unfold Passive.newPassiveSocket, Passive.GoListenAndServe. run_go.
  destruct w as [sk out log]. cbn [netlog sink stdout Passive.port] in *.
  rewrite R, L. cbn [net.Addr].
  pose proof (port_part_of_address bound Hp) as Hlast. cbv zeta in Hlast.
  rewrite Hlast, (Atoi_Itoa _ Hp).
  do 2 eexists. split; [reflexivity | ]. split; reflexivity.
Qed.

Lemma passive_construction_succeeds_witness :
  exists st w',
    Passive.newPassiveSocket (demo_net false) "192.0.2.1" 2121 1%nat "s1" None World0
      = Val (Ok st) w' /\
    Passive.sock st =
      {| Passive.conn := None; Passive.port := 2121; Passive.host := "192.0.2.1";
         Passive.logger := 1%nat; Passive.wg := 1; Passive.err := None;
         Passive.tlsConfig := None |} /\
    Passive.task st =
      Passive.AtSetDeadline
        (net.TCPListener {| net.IP := "::"; net.Port := 2121; net.Zone := "" |}).
Proof.
  apply (passive_construction_succeeds (demo_net false) "192.0.2.1" 2121 1%nat "s1" None
           World0 {| net.IP := ""; net.Port := 2121; net.Zone := "" |}
           {| net.IP := "::"; net.Port := 2121; net.Zone := "" |}).
  - vm_compute. reflexivity.
  - vm_compute. reflexivity.
  - unfold strconv.maxInt. cbn. lia.
Defined.

(** X2: when resolving or listening fails, construction returns that very
    error and no socket, the error has gone to the logger once, under the
    session's identifier, nothing is printed, and nothing is listened on
    after a failed resolve.  With a bound listener the only error left is
    the one of [Atoi]. *)
Theorem passive_construction_failure os host port logger sessionID tlsConfing w :
  let address := net.JoinHostPort "" (strconv.Itoa port) in
  match os_ResolveTCPAddr os (netlog w) "tcp" address with
  | Err e =>
      exists w',
        Passive.newPassiveSocket os host port logger sessionID tlsConfing w
          = Val (Err e) w' /\
        sink w' = (sink w ++ [logged_error logger sessionID e])%list /\
        stdout w' = stdout w /\
        netlog w' = (netlog w ++ [EvResolve "tcp" address])%list
  | Ok laddr =>
      match os_ListenTCP os (netlog w ++ [EvResolve "tcp" address]) "tcp" laddr with
      | Err e =>
          exists w',
            Passive.newPassiveSocket os host port logger sessionID tlsConfing w
              = Val (Err e) w' /\
            sink w' = (sink w ++ [logged_error logger sessionID e])%list /\
            stdout w' = stdout w /\
            netlog w' = (netlog w ++ [EvResolve "tcp" address; EvListen "tcp" laddr])%list
      | Ok bound =>
          exists r w',
            Passive.newPassiveSocket os host port logger sessionID tlsConfing w
              = Val r w' /\
            match r with
            | Ok _ => True
            | Err e => exists num kind, e = NumError "Atoi" num kind
            end
      end
  end.
Proof.
  cbv zeta. unfold Passive.newPassiveSocket, Passive.GoListenAndServe. run_go.
  destruct w as [sk out log]. cbn [netlog sink stdout Passive.port Passive.logger].
  destruct (os_ResolveTCPAddr os log "tcp" _) as [laddr | e].
  - destruct (os_ListenTCP os _ "tcp" laddr) as [bound | e].
    + cbn [net.Addr].
      destruct (index_last_part (net.TCPAddr_String bound)) as [last ->].
      destruct (strconv.Atoi last) as [p | e] eqn:A.
      * do 2 eexists. split; [reflexivity | exact I].
      * do 2 eexists. split; [reflexivity | ].
        unfold strconv.Atoi in A.
        repeat match type of A with
               | match ?x with _ => _ end = _ => destruct x
               | (if ?x then _ else _) = _ => destruct x
               | (let _ := _ in _) = _ => cbv zeta in A
               end; try discriminate A; injection A as <-; eauto.
    + eexists. split; [reflexivity | ]. cbn. rewrite <- app_assoc. auto.
  - eexists. split; [reflexivity | ]. cbn. auto.
Qed.

(** ** The accept goroutine *)

Lemma goroutine_run_five os st w bound :
  Passive.task st = Passive.AtSetDeadline (net.TCPListener bound) ->
  Passive.wg (Passive.sock st) = 1%nat ->
  let deadline := EvSetDeadline bound 15000000000 in
  goroutine_run os 5 st w =
  (match os_Accept os (netlog w ++ [deadline]) bound with
   | Ok fd =>
       {| Passive.sock :=
            Passive.set_wg 0
              (Passive.set_conn (Some (net.TCPConn fd))
                 (Passive.set_err None (Passive.sock st)));
          Passive.task := Passive.Exited |}
   | Err e =>
       {| Passive.sock := Passive.set_wg 0 (Passive.set_err (Some e) (Passive.sock st));
          Passive.task := Passive.Exited |}
   end,
   {| sink := sink w; stdout := stdout w;
      netlog := (netlog w ++ [deadline]) ++ [EvAccept (net.TCPListener bound)] |}).
Proof.
  intros Ht Hw. cbv zeta. destruct st as [s t]. cbn [Passive.sock Passive.task] in *.
  subst t. destruct w as [sk out log]. cbn [netlog sink stdout].
  destruct (os_Accept os (log ++ [EvSetDeadline bound 15000000000]) bound)
    as [fd | e] eqn:A;
    cbv [goroutine_run Passive.goroutine bind ret emit history Accept accept_on
         Passive.task Passive.sock fst snd netlog sink stdout];
    change (15 * time.Second) with 15000000000; rewrite A;
    cbn [Passive.wg Passive.set_conn Passive.set_err]; rewrite Hw; reflexivity.
Qed.

(** X3: left to run, the goroutine of a constructed socket finishes within
    five statements.  On the network it has set the deadline of 15 seconds
    on the bound listener and then accepted once, and nothing else; the
    WaitGroup is back at zero; and the gate is [Ready] with the accepted
    connection or [Failed] with the error of the accept, as the accept
    answered. *)
Theorem goroutine_runs_to_completion
  os host port logger sessionID tlsConfing w0 st w :
  Passive.newPassiveSocket os host port logger sessionID tlsConfing w0 = Val (Ok st) w ->
  exists bound,
    Passive.task st = Passive.AtSetDeadline (net.TCPListener bound) /\
    let deadline := EvSetDeadline bound (15 * time.Second) in
    let st' := fst (goroutine_run os 5 st w) in
    let w' := snd (goroutine_run os 5 st w) in
    Passive.task st' = Passive.Exited /\
    Passive.wg (Passive.sock st') = 0%nat /\
    netlog w' = (netlog w ++ [deadline; EvAccept (net.TCPListener bound)])%list /\
    sink w' = sink w /\ stdout w' = stdout w /\
    gate (Passive.sock st') =
      match os_Accept os (netlog w ++ [deadline]) bound with
      | Ok fd => Ready (net.TCPConn fd)
      | Err e => Failed e
      end.
Proof.
  intros Hnew. apply newPassiveSocket_started in Hnew.
  destruct Hnew as (laddr & bound & p & _ & _ & _ & Hs & Ht & _).
  exists bound. split; [assumption | ]. cbv zeta.
  change (15 * time.Second) with 15000000000.
  rewrite (goroutine_run_five os st w bound Ht) by (rewrite Hs; reflexivity).
  cbn [fst snd netlog sink stdout]. rewrite Hs.
  destruct (os_Accept os _ bound) as [fd | e];
    (split; [reflexivity | ]); (split; [reflexivity | ]);
    (split; [rewrite <- app_assoc; reflexivity | ]);
    repeat split; reflexivity.
Qed.

Lemma goroutine_runs_to_completion_witness :
  let os := demo_net true in
  let st := fst (demo_started true) in
  let w := snd (demo_started true) in
  exists bound,
    Passive.task st = Passive.AtSetDeadline (net.TCPListener bound) /\
    let deadline := EvSetDeadline bound (15 * time.Second) in
    let st' := fst (goroutine_run os 5 st w) in
    let w' := snd (goroutine_run os 5 st w) in
    Passive.task st' = Passive.Exited /\
    Passive.wg (Passive.sock st') = 0%nat /\
    netlog w' = (netlog w ++ [deadline; EvAccept (net.TCPListener bound)])%list /\
    sink w' = sink w /\ stdout w' = stdout w /\
    gate (Passive.sock st') =
      match os_Accept os (netlog w ++ [deadline]) bound with
      | Ok fd => Ready (net.TCPConn fd)
      | Err e => Failed e
      end.
Proof.
  cbv zeta.
  apply (goroutine_runs_to_completion (demo_net true) "127.0.0.1" 0 1%nat "s1" None World0).
  vm_compute. reflexivity.
Defined.

Lemma accepts_snoc (log : list NetEvent) (e : NetEvent) :
  accepts (log ++ [e]) = (accepts log + (if is_accept e then 1 else 0))%nat.
Proof.
  unfold accepts. rewrite filter_app, length_app. cbn.
  destruct (is_accept e); reflexivity.
Qed.

Lemma accepts_goroutine os st w st' w' :
  inv st -> Passive.goroutine os st w = Val st' w' ->
  (accepts (netlog w') + (if accept_returned (Passive.task st) then 1 else 0)
   = accepts (netlog w) + (if accept_returned (Passive.task st') then 1 else 0))%nat.
Proof.
  intros [_ Hinv]. unfold Passive.goroutine. run_go.
  destruct w as [sk out log]. cbn [netlog].
  destruct (Passive.task st) as [ | [laddr | inner config] | l | [c | e] | c | | | ];
    try contradiction; try discriminate;
    try (intros H; injection H as <- <-; cbn [netlog Passive.task accept_returned];
         try rewrite accepts_snoc; cbn [is_accept]; lia).
  destruct Hinv as [Hw _]. rewrite Hw. intros H. injection H as <- <-.
  cbn [netlog Passive.task accept_returned]. lia.
Qed.

Lemma accepts_calls os s w :
  (forall p r w', Passive.Read os s p w = Val r w' -> accepts (netlog w') = accepts (netlog w)) /\
  (forall p r w', Passive.Write os s p w = Val r w' -> accepts (netlog w') = accepts (netlog w)) /\
  (forall r w', Passive.Close os s w = Val r w' -> accepts (netlog w') = accepts (netlog w)).
Proof.
  unfold Passive.Read, Passive.Write, Passive.Close, Passive.waitForOpenSocket. run_go.
  destruct w as [sk out log]. cbn [netlog].
  destruct (Passive.conn s) as [c | ].
  - split; [ | split].
    + intros p r w'. destruct (os_Read os log c (List.length p)).
      intros H. injection H as _ <-. cbn [netlog]. rewrite accepts_snoc. cbn. lia.
    + intros p r w' H. injection H as _ <-. cbn [netlog]. rewrite accepts_snoc. cbn. lia.
    + intros r w' H. injection H as _ <-. cbn [netlog]. rewrite accepts_snoc. cbn. lia.
  - destruct (Passive.wg s).
    + destruct (Passive.err s); (split; [ | split]); intros;
        try discriminate;
        match goal with H : Val _ _ = Val _ _ |- _ => injection H as _ <- end;
        reflexivity.
    + (split; [ | split]); intros; try discriminate.
      match goal with H : Val _ _ = Val _ _ |- _ => injection H as _ <- end.
      reflexivity.
Qed.

(** X4: a passive socket accepts once.  However the goroutine and the
    caller's [Read], [Write] and [Close] interleave, the network has seen no
    accept since construction while the accept of the goroutine has not
    returned, and exactly one afterwards: a failed accept is not tried
    again, and no second peer is ever accepted. *)
Theorem accepts_exactly_once
  os host port logger sessionID tlsConfing w0 st0 w1 st w :
  Passive.newPassiveSocket os host port logger sessionID tlsConfing w0 = Val (Ok st0) w1 ->
  run os (st0, w1) (st, w) ->
  accepts (netlog w)
  = (accepts (netlog w0) + (if accept_returned (Passive.task st) then 1 else 0))%nat.
Proof.
  intros Hnew Hrun.
  pose proof (inv_newPassiveSocket _ _ _ _ _ _ _ _ _ Hnew) as Hinv0.
  assert (H1 : accepts (netlog w1) = accepts (netlog w0)
               /\ accept_returned (Passive.task st0) = false).
  { apply newPassiveSocket_started in Hnew.
    destruct Hnew as (laddr & bound & p & _ & _ & _ & _ & Ht & _ & _ & Hn).
    rewrite Hn, Ht, !accepts_snoc. cbn. split; [lia | reflexivity]. }
  destruct H1 as [H1 Hb]. rewrite <- H1. clear H1 Hnew.
  remember (st0, w1) as c0 eqn:E0. remember (st, w) as c eqn:E.
  revert st w E. induction Hrun as [c | c1 [st2 w2] c3 Hrun IH Hstep]; intros st w E.
  - subst c. injection E as -> ->. rewrite Hb. lia.
  - subst c1 c3. specialize (IH eq_refl st2 w2 eq_refl).
    pose proof (inv_run os _ _ Hrun Hinv0) as Hinv2. cbn [fst] in Hinv2.
    apply step_cases in Hstep.
    destruct Hstep as [H | (-> & _ & [(p & r & H) | [(p & r & H) | (r & H)]])].
    + pose proof (accepts_goroutine os st2 w2 st w Hinv2 H). lia.
    + apply (accepts_calls os (Passive.sock st2) w2) in H. lia.
    + apply (accepts_calls os (Passive.sock st2) w2) in H. lia.
    + apply (accepts_calls os (Passive.sock st2) w2) in H. lia.
Qed.

Lemma accepts_exactly_once_witness :
  accepts (netlog (snd (demo_after false 5))) = 1%nat.
Proof.
  apply (accepts_exactly_once (demo_net false) "127.0.0.1" 0 1%nat "s1" None World0
           (fst (demo_started false)) (snd (demo_started false))
           (fst (demo_after false 5)) (snd (demo_after false 5))).
  - vm_compute. reflexivity.
  - rewrite <- (surjective_pairing (demo_after false 5)). apply goroutine_run_is_run.
Defined.

(** ** No panic, and the WaitGroup *)

Lemma inv_goroutine_progress os st w :
  inv st ->
  Passive.task st = Passive.Exited \/
  exists st' w', Passive.goroutine os st w = Val st' w' /\ Passive.task st' <> Passive.Crashed.
Proof.
  intros [_ Hinv]. unfold Passive.goroutine. run_go.
  destruct (Passive.task st) as [ | [laddr | inner config] | l | [c | e] | c | | | ];
    try contradiction;
    try (right; do 2 eexists; split; [reflexivity | discriminate]).
  - destruct Hinv as [Hl _]. discriminate Hl.
  - destruct Hinv as [Hw _]. rewrite Hw. right.
    do 2 eexists. split; [reflexivity | discriminate].
  - left. reflexivity.
Qed.

Lemma inv_wg st :
  inv st ->
  Passive.wg (Passive.sock st)
  = match Passive.task st with Passive.Exited => 0%nat | _ => 1%nat end.
Proof.
  intros [_ Hinv]. unfold untouched in Hinv.
  destruct (Passive.task st) as [ | l | l | [c | e] | c | | | ];
    try contradiction; tauto.
Qed.

(** X5: a socket made by [newPassiveSocket] never panics.  In every
    configuration it can reach, the goroutine has not crashed and, unless
    it has finished, has a next statement that does not crash either (the
    type assertion holds and [Done] finds the counter at one), and [Read],
    [Write] and [Close] do not dereference a nil stream. *)
Theorem passive_socket_never_panics os st w :
  reachable os (st, w) ->
  Passive.task st <> Passive.Crashed /\
  (Passive.task st = Passive.Exited \/
   exists st' w',
     Passive.goroutine os st w = Val st' w' /\ Passive.task st' <> Passive.Crashed) /\
  (forall p w', Passive.Read os (Passive.sock st) p w <> Panic w') /\
  (forall p w', Passive.Write os (Passive.sock st) p w <> Panic w') /\
  (forall w', Passive.Close os (Passive.sock st) w <> Panic w').
Proof.
  intros Hr. apply inv_reachable in Hr.
  split; [ | split; [apply inv_goroutine_progress; assumption | ]].
  - destruct Hr as [_ Hinv]. intros Ht. rewrite Ht in Hinv. exact Hinv.
  - pose proof (inv_gate_armed st Hr) as Ha.
    split; [ | split].
    + intros p w' H.
      pose proof (calls_on_resolved_gate os (Passive.sock st) p w) as Hc.
      destruct (calls_wait_iff_pending os (Passive.sock st) p w) as [[_ HR] _].
      destruct (gate (Passive.sock st)) as [ | c | e | ].
      * rewrite (HR eq_refl) in H. discriminate H.
      * destruct Hc as [Hc _]. rewrite Hc in H.
        destruct (conn_Read_returns os c p w) as (r & w2 & E & _). congruence.
      * destruct Hc as [Hc _]. congruence.
      * congruence.
    + intros p w' H.
      pose proof (calls_on_resolved_gate os (Passive.sock st) p w) as Hc.
      destruct (calls_wait_iff_pending os (Passive.sock st) p w) as [_ [_ HW]].
      destruct (gate (Passive.sock st)) as [ | c | e | ].
      * rewrite (HW eq_refl) in H. discriminate H.
      * destruct Hc as [_ Hc]. rewrite Hc in H.
        destruct (conn_Write_returns os c p w) as (r & w2 & E & _). congruence.
      * destruct Hc as [_ Hc]. congruence.
      * congruence.
    + intros w' H. pose proof (passive_Close_outcome os (Passive.sock st) w) as Hc.
      rewrite H in Hc. exact Hc.
Qed.

Lemma passive_socket_never_panics_witness :
  let os := demo_net false in
  let st := fst (demo_after false 3) in
  let w := snd (demo_after false 3) in
  Passive.task st <> Passive.Crashed /\
  (Passive.task st = Passive.Exited \/
   exists st' w',
     Passive.goroutine os st w = Val st' w' /\ Passive.task st' <> Passive.Crashed) /\
  (forall p w', Passive.Read os (Passive.sock st) p w <> Panic w') /\
  (forall p w', Passive.Write os (Passive.sock st) p w <> Panic w') /\
  (forall w', Passive.Close os (Passive.sock st) w <> Panic w').
Proof.
  cbv zeta.
  apply (passive_socket_never_panics (demo_net false)
           (fst (demo_after false 3)) (snd (demo_after false 3))).
  rewrite <- surjective_pairing. apply demo_reachable.
Defined.

(** X6: the WaitGroup counts the goroutine: in every configuration a
    passive socket can reach its counter is one until the goroutine has
    run its deferred [Done], and zero from then on.  So [Wait] waits for
    this goroutine and for nothing else. *)
Theorem waitgroup_counts_the_goroutine os st w :
  reachable os (st, w) ->
  Passive.wg (Passive.sock st)
  = match Passive.task st with Passive.Exited => 0%nat | _ => 1%nat end.
Proof.
  intros Hr. apply inv_wg. eapply inv_reachable. eassumption.
Qed.

Lemma waitgroup_counts_the_goroutine_witness :
  Passive.wg (Passive.sock (fst (demo_after true 3))) = 1%nat /\
  Passive.wg (Passive.sock (fst (demo_after true 4))) = 0%nat.
Proof.
  split.
  - apply (waitgroup_counts_the_goroutine (demo_net true)
             (fst (demo_after true 3)) (snd (demo_after true 3))).
    rewrite <- surjective_pairing. apply demo_reachable.
  - apply (waitgroup_counts_the_goroutine (demo_net true)
             (fst (demo_after true 4)) (snd (demo_after true 4))).
    rewrite <- surjective_pairing. apply demo_reachable.
Defined.

(** ** What stays as constructed *)

Lemma fields_goroutine os st w st' w' :
  Passive.goroutine os st w = Val st' w' ->
  Passive.host (Passive.sock st') = Passive.host (Passive.sock st) /\
  Passive.logger (Passive.sock st') = Passive.logger (Passive.sock st) /\
  Passive.tlsConfig (Passive.sock st') = Passive.tlsConfig (Passive.sock st).
Proof.
  intros H. apply goroutine_cases in H. cbv zeta in H.
  destruct (Passive.task st) as [ | [laddr | inner config] | l | [c | e] | c | | | ];
    try contradiction; try (subst st'; cbn; auto).
  destruct (Passive.wg (Passive.sock st)); subst st'; cbn; auto.
Qed.

(** X7: what [Host] and [Port] report is fixed when the constructor
    returns: [Host] is the host the caller gave, and neither changes
    whatever the goroutine and the caller do afterwards; accepting a peer
    does not replace them by the peer's or the listener's address. *)
Theorem host_and_port_are_fixed
  os host port logger sessionID tlsConfing w0 st0 w1 st w :
  Passive.newPassiveSocket os host port logger sessionID tlsConfing w0 = Val (Ok st0) w1 ->
  run os (st0, w1) (st, w) ->
  Passive.Host (Passive.sock st) = host /\
  Passive.Port (Passive.sock st) = Passive.Port (Passive.sock st0).
Proof.
  intros Hnew Hrun. split.
  - assert (H0 : Passive.host (Passive.sock st0) = host).
    { apply newPassiveSocket_started in Hnew.
      destruct Hnew as (laddr & bound & p & _ & _ & _ & Hs & _). rewrite Hs. reflexivity. }
    unfold Passive.Host. rewrite <- H0. clear Hnew H0.
    remember (st0, w1) as c0 eqn:E0. remember (st, w) as c eqn:E.
    revert st w E. induction Hrun as [c | c1 [st2 w2] c3 _ IH Hstep]; intros st w E.
    + subst c. injection E as -> ->. reflexivity.
    + subst c1 c3. rewrite <- (IH eq_refl st2 w2 eq_refl).
      apply step_cases in Hstep. destruct Hstep as [H | (-> & _)]; [ | reflexivity].
      apply fields_goroutine in H. apply H.
  - apply port_run in Hrun. exact Hrun.
Qed.

Lemma host_and_port_are_fixed_witness :
  Passive.Host (Passive.sock (fst (demo_after false 5))) = "127.0.0.1" /\
  Passive.Port (Passive.sock (fst (demo_after false 5)))
  = Passive.Port (Passive.sock (fst (demo_started false))).
Proof.
  apply (host_and_port_are_fixed (demo_net false) "127.0.0.1" 0 1%nat "s1" None World0
           (fst (demo_started false)) (snd (demo_started false))
           (fst (demo_after false 5)) (snd (demo_after false 5))).
  - vm_compute. reflexivity.
  - rewrite <- (surjective_pairing (demo_after false 5)). apply goroutine_run_is_run.
Defined.

(** ** Closing a passive socket that holds a stream *)

Lemma Close_times_stream os s c :
  Passive.conn s = Some c ->
  forall n w,
    Close_times os n s w =
    Val (map (fun i => os_Close os (netlog w ++ repeat (EvClose c) i) c) (seq 0 n))
        {| sink := sink w;
           stdout := stdout w ++ repeat ("close " ++ strconv.Itoa (Passive.port s))%string n;
           netlog := netlog w ++ repeat (EvClose c) n |}.
Proof.
  intros Hc n. induction n as [ | n IH]; intros w.
  - cbn. rewrite !app_nil_r. destruct w; reflexivity.
  - cbn [Close_times]. unfold bind at 1, Passive.Close. rewrite Hc. run_go.
    destruct w as [sk out log]. cbn [netlog sink stdout].
    match goal with
    | |- context [Close_times os n s ?w1] => rewrite (IH w1)
    end.
    cbn [netlog sink stdout]. f_equal.
    + cbn [seq map repeat]. rewrite app_nil_r. f_equal.
      rewrite <- seq_shift, map_map. apply map_ext. intros i.
      cbn [repeat]. rewrite <- app_assoc. reflexivity.
    + f_equal.
      * cbn [repeat]. rewrite <- app_assoc. reflexivity.
      * cbn [repeat]. rewrite <- app_assoc. reflexivity.
Qed.

(** X8: [Close] on a passive socket that holds a stream is not guarded
    against repetition: each of [n] calls in a row prints "close <port>",
    calls [Close] on the same stream and returns what the stream answers to
    that call, so the stream is closed [n] times and the answers are the
    stream's own.  Nothing goes to the logger. *)
Theorem close_reaches_stream_every_time os s c n w :
  Passive.conn s = Some c ->
  exists w',
    Close_times os n s w =
      Val (map (fun i => os_Close os (netlog w ++ repeat (EvClose c) i) c) (seq 0 n)) w' /\
    netlog w' = (netlog w ++ repeat (EvClose c) n)%list /\
    stdout w' =
      (stdout w ++ repeat ("close " ++ strconv.Itoa (Passive.port s))%string n)%list /\
    sink w' = sink w.
Proof.
  intros Hc. eexists. split; [apply Close_times_stream; assumption | ].
  cbn. auto.
Qed.

Lemma close_reaches_stream_every_time_witness :
  let s := Passive.sock (fst (demo_after false 5)) in
  let w := snd (demo_after false 5) in
  exists w',
    Close_times (demo_net false) 2 s w = Val [None; None] w' /\
    netlog w' = (netlog w ++ [EvClose (net.TCPConn 8); EvClose (net.TCPConn 8)])%list /\
    stdout w' = (stdout w ++ ["close 40000"; "close 40000"])%list /\
    sink w' = sink w.
Proof.
  cbv zeta.
  apply (close_reaches_stream_every_time (demo_net false)
           (Passive.sock (fst (demo_after false 5))) (net.TCPConn 8) 2
           (snd (demo_after false 5))).
  reflexivity.
Defined.

(** ** What constructing an active socket leaves behind *)

(** X9: [newActiveSocket] tells the logger what it does and nothing more: the
    opening line always, followed by the error, once, when resolving or
    dialling fails; standard output gets "open <port>" only when the
    socket is handed back.  A failed resolve is logged and returned before
    anything is dialled. *)
Theorem active_construction_effects os remote port logger sessionID w :
  let connectTo := net.JoinHostPort remote (strconv.Itoa port) in
  let opening :=
    {| ev_logger := logger; ev_session := sessionID;
       ev_message := MsgString ("Opening active data connection to " ++ connectTo) |} in
  let resolved := (netlog w ++ [EvResolve "tcp" connectTo])%list in
  match os_ResolveTCPAddr os (netlog w) "tcp" connectTo with
  | Err e =>
      exists w',
        Active.newActiveSocket os remote port logger sessionID w = Val (Err e) w' /\
        sink w' = (sink w ++ [opening; logged_error logger sessionID e])%list /\
        stdout w' = stdout w
  | Ok raddr =>
      match os_DialTimeout os resolved "tcp" (net.TCPAddr_String raddr)
              (15 * time.Second) with
      | Err e =>
          exists w',
            Active.newActiveSocket os remote port logger sessionID w = Val (Err e) w' /\
            sink w' = (sink w ++ [opening; logged_error logger sessionID e])%list /\
            stdout w' = stdout w
      | Ok fd =>
          exists socket w',
            Active.newActiveSocket os remote port logger sessionID w
              = Val (Ok socket) w' /\
            sink w' = (sink w ++ [opening])%list /\
            stdout w' = (stdout w ++ [("open " ++ strconv.Itoa port)%string])%list
      end
  end.
Proof.
  cbv zeta. unfold Active.newActiveSocket. run_go.
  destruct w as [sk out log]. cbn [netlog sink stdout].
  destruct (os_ResolveTCPAddr os log "tcp" _) as [raddr | e].
  - change (15 * time.Second) with 15000000000.
    destruct (os_DialTimeout os _ "tcp" _ _) as [fd | e].
    + do 2 eexists. split; [reflexivity | ]. cbn. auto.
    + eexists. split; [reflexivity | ]. cbn. rewrite <- app_assoc. auto.
  - eexists. split; [reflexivity | ]. cbn. rewrite <- app_assoc. auto.
Qed.

(** ** From construction to the first call *)

(** X10: construction, the goroutine and the first calls fit together.  Once
    the goroutine of a constructed socket has run, [Read] and [Write] are
    the calls of the raw connection the accept on the bound listener
    returned, or, when that accept failed, return 0 bytes and its error
    without touching the network. *)
Theorem calls_after_the_goroutine
  os host port logger sessionID tlsConfing w0 st w p :
  Passive.newPassiveSocket os host port logger sessionID tlsConfing w0 = Val (Ok st) w ->
  exists bound,
    Passive.task st = Passive.AtSetDeadline (net.TCPListener bound) /\
    let s' := Passive.sock (fst (goroutine_run os 5 st w)) in
    let w' := snd (goroutine_run os 5 st w) in
    match os_Accept os (netlog w ++ [EvSetDeadline bound (15 * time.Second)]) bound with
    | Ok fd =>
        Passive.Read os s' p w' = conn_Read os (net.TCPConn fd) p w' /\
        Passive.Write os s' p w' = conn_Write os (net.TCPConn fd) p w'
    | Err e =>
        Passive.Read os s' p w' = Val (0, p, Some e) w' /\
        Passive.Write os s' p w' = Val (0, Some e) w'
    end.
Proof.
  intros Hnew. apply newPassiveSocket_started in Hnew.
  destruct Hnew as (laddr & bound & q & _ & _ & _ & Hs & Ht & _).
  exists bound. split; [assumption | ]. cbv zeta.
  change (15 * time.Second) with 15000000000.
  rewrite (goroutine_run_five os st w bound Ht) by (rewrite Hs; reflexivity).
  cbn [fst snd]. rewrite Hs.
  match goal with
  | |- context [Passive.Read os ?s' p ?w'] =>
      pose proof (calls_on_resolved_gate os s' p w') as Hc
  end.
  destruct (os_Accept os _ bound) as [fd | e]; exact Hc.
Qed.

Lemma calls_after_the_goroutine_witness :
  let os := demo_net false in
  let s' := Passive.sock (fst (demo_after false 5)) in
  let w' := snd (demo_after false 5) in
  Passive.Read os s' [Byte.x00; Byte.x00] w' = conn_Read os (net.TCPConn 8) [Byte.x00; Byte.x00] w' /\
  Passive.Write os s' [Byte.x00; Byte.x00] w' = conn_Write os (net.TCPConn 8) [Byte.x00; Byte.x00] w'.
Proof.
  cbv zeta.
  destruct (calls_after_the_goroutine (demo_net false) "127.0.0.1" 0 1%nat "s1" None World0
              (fst (demo_started false)) (snd (demo_started false))
              [Byte.x00; Byte.x00] ltac:(vm_compute; reflexivity))
    as (bound & Ht & H).
  injection Ht as <-. exact H.
Defined.
